(** * Verification of the LLM adapter factory, the Anthropic adapter and the
      JSON configuration loader.

    The development embeds, function by function,
    - [packages/openai-adapters/src/index.ts] (the client factory),
    - [packages/openai-adapters/src/apis/Anthropic.ts] (constructor, request
      translation of the stop sequences, usage accounting, stream decoding),
    - [core/config/load.ts] ([resolveSerializedConfig], [loadSerializedConfig]
      and the model-list part of [intermediateToFinalConfig]).

    JavaScript values are modelled as follows: a string is a [string] (its
    characters are the code units below 256), [undefined] is [None], an object
    used as a dictionary is a [gmap string _], an array is a [list], a token
    count is a [Z]. A function that can throw returns an explicit outcome:
    [None] where only the fact matters, the error message otherwise. *)

From Stdlib Require Import ZArith String Ascii List Bool Lia.
From stdpp Require Import base option list gmap strings fin_maps.
Import ListNotations.
Local Open Scope string_scope.
Set Warnings "-register-all".


(** ** JavaScript string primitives used by the sources *)

Module Js.

(** [s.endsWith(suffix)] *)
Definition endsWith (s suffix : string) : bool :=
  let n := String.length s in
  let k := String.length suffix in
  (k <=? n)%nat && String.eqb (substring (n - k) k s) suffix.

(** White space in the sense of [String.prototype.trim], among the code
    units below 256: TAB, LF, VT, FF, CR, SPACE and NBSP. *)
Definition isWhiteSpace (c : ascii) : bool :=
  let n := nat_of_ascii c in
  ((9 <=? n) && (n <=? 13) || (n =? 32) || (n =? 160))%nat.

Fixpoint trimStart (s : string) : string :=
  match s with
  | EmptyString => EmptyString
  | String c rest => if isWhiteSpace c then trimStart rest else s
  end.

(** [trimEnd] drops the trailing white space: a character is kept when it
    is not white space or when something is kept after it. *)
Fixpoint trimEnd (s : string) : string :=
  match s with
  | EmptyString => EmptyString
  | String c rest =>
      match trimEnd rest with
      | EmptyString => if isWhiteSpace c then EmptyString else String c EmptyString
      | kept => String c kept
      end
  end.

(** [s.trim()] *)
Definition trim (s : string) : string := trimEnd (trimStart s).

(** JavaScript truthiness of an optional string: [undefined] and the empty
    string are falsy. *)
Definition truthy (o : option string) : bool :=
  match o with
  | Some s => negb (String.eqb s EmptyString)
  | None => false
  end.

(** The double quote character. *)
Definition dquote : ascii := ascii_of_nat 34.

(** [a ?? b] *)
Definition nullish {A} (a : option A) (b : A) : A :=
  match a with Some x => x | None => b end.

End Js.

(** ** The client factory: packages/openai-adapters/src/index.ts *)

Module Factory.

(** [LLMConfig]: the discriminating [provider], the two fields the factory
    and the constructors look at, and every other field of the object. *)
Record LLMConfig := mkLLMConfig {
  provider : string;
  apiKey : option string;
  apiBase : option string;
  extras : gmap string string
}.

(** A client is the constructor call that built it: the class and the
    configuration object it was given ([MockApi] takes none). *)
Inductive BaseLlmApi :=
| new_OpenAIApi (config : LLMConfig)
| new_AzureApi (config : LLMConfig)
| new_BedrockApi (config : LLMConfig)
| new_CohereApi (config : LLMConfig)
| new_AnthropicApi (config : LLMConfig)
| new_GeminiApi (config : LLMConfig)
| new_JinaApi (config : LLMConfig)
| new_DeepSeekApi (config : LLMConfig)
| new_MoonshotApi (config : LLMConfig)
| new_RelaceApi (config : LLMConfig)
| new_InceptionApi (config : LLMConfig)
| new_WatsonXApi (config : LLMConfig)
| new_VertexAIApi (config : LLMConfig)
| new_LlamastackApi (config : LLMConfig)
| new_ContinueProxyApi (config : LLMConfig)
| new_MockApi.

(** [{ ...config, apiBase: config.apiBase ?? apiBase }] handed to
    [new OpenAIApi]. *)
Definition openAICompatible (apiBase0 : string) (config : LLMConfig) : BaseLlmApi :=
  new_OpenAIApi
    {| provider := provider config;
       apiKey := apiKey config;
       apiBase := Some (Js.nullish (apiBase config) apiBase0);
       extras := extras config |}.

(** The [switch (config.provider)]; [None] is the [undefined] of the
    [default] branch. *)
Definition constructLlmApi (config : LLMConfig) : option BaseLlmApi :=
  let p := provider config in
  if String.eqb p "openai" then Some (new_OpenAIApi config)
  else if String.eqb p "azure" then Some (new_AzureApi config)
  else if String.eqb p "bedrock" then Some (new_BedrockApi config)
  else if String.eqb p "cohere" then Some (new_CohereApi config)
  else if String.eqb p "anthropic" then Some (new_AnthropicApi config)
  else if String.eqb p "gemini" then Some (new_GeminiApi config)
  else if String.eqb p "jina" then Some (new_JinaApi config)
  else if String.eqb p "deepseek" then Some (new_DeepSeekApi config)
  else if String.eqb p "moonshot" then Some (new_MoonshotApi config)
  else if String.eqb p "relace" then Some (new_RelaceApi config)
  else if String.eqb p "inception" then Some (new_InceptionApi config)
  else if String.eqb p "watsonx" then Some (new_WatsonXApi config)
  else if String.eqb p "vertexai" then Some (new_VertexAIApi config)
  else if String.eqb p "llamastack" then Some (new_LlamastackApi config)
  else if String.eqb p "continue-proxy" then Some (new_ContinueProxyApi config)
  else if String.eqb p "xAI" then
    Some (openAICompatible "https://api.x.ai/v1/" config)
  else if String.eqb p "voyage" then
    Some (openAICompatible "https://api.voyageai.com/v1/" config)
  else if String.eqb p "mistral" then
    Some (openAICompatible "https://api.mistral.ai/v1/" config)
  else if String.eqb p "deepinfra" then
    Some (openAICompatible "https://api.deepinfra.com/v1/openai/" config)
  else if String.eqb p "vllm" then
    Some (openAICompatible "http://localhost:8000/v1/" config)
  else if String.eqb p "groq" then
    Some (openAICompatible "https://api.groq.com/openai/v1/" config)
  else if String.eqb p "sambanova" then
    Some (openAICompatible "https://api.sambanova.ai/v1/" config)
  else if String.eqb p "text-gen-webui" then
    Some (openAICompatible "http://127.0.0.1:5000/v1/" config)
  else if String.eqb p "openrouter" then
    Some (openAICompatible "https://openrouter.ai/api/v1/" config)
  else if String.eqb p "cerebras" then
    Some (openAICompatible "https://api.cerebras.ai/v1/" config)
  else if String.eqb p "kindo" then
    Some (openAICompatible "https://llm.kindo.ai/v1/" config)
  else if String.eqb p "msty" then
    Some (openAICompatible "http://localhost:10000" config)
  else if String.eqb p "nvidia" then
    Some (openAICompatible "https://integrate.api.nvidia.com/v1/" config)
  else if String.eqb p "ovhcloud" then
    Some (openAICompatible "https://oai.endpoints.kepler.ai.cloud.ovh.net/v1/" config)
  else if String.eqb p "scaleway" then
    Some (openAICompatible "https://api.scaleway.ai/v1/" config)
  else if String.eqb p "fireworks" then
    Some (openAICompatible "https://api.fireworks.ai/inference/v1/" config)
  else if String.eqb p "together" then
    Some (openAICompatible "https://api.together.xyz/v1/" config)
  else if String.eqb p "ncompass" then
    Some (openAICompatible "https://api.ncompass.tech/v1" config)
  else if String.eqb p "novita" then
    Some (openAICompatible "https://api.novita.ai/v3/openai" config)
  else if String.eqb p "nebius" then
    Some (openAICompatible "https://api.studio.nebius.ai/v1/" config)
  else if String.eqb p "function-network" then
    Some (openAICompatible "https://api.function.network/v1/" config)
  else if String.eqb p "llama.cpp" || String.eqb p "llamafile" then
    Some (openAICompatible "http://localhost:8000/" config)
  else if String.eqb p "lmstudio" then
    Some (openAICompatible "http://localhost:1234/" config)
  else if String.eqb p "ollama" then
    Some (openAICompatible "http://localhost:11434/v1/" config)
  else if String.eqb p "mock" then Some new_MockApi
  else None.

(** The identifiers with a bespoke client class (the [case] labels that
    return [new XApi(...)]). *)
Definition dedicatedProviders : list string :=
  [ "openai"; "azure"; "bedrock"; "cohere"; "anthropic"; "gemini"; "jina";
    "deepseek"; "moonshot"; "relace"; "inception"; "watsonx"; "vertexai";
    "llamastack"; "continue-proxy"; "mock" ].

(** The OpenAI-compatible identifiers with the default [apiBase] of their
    [case] label, in source order. *)
Definition openAICompatibleDefaults : list (string * string) :=
  [ ("xAI", "https://api.x.ai/v1/");
    ("voyage", "https://api.voyageai.com/v1/");
    ("mistral", "https://api.mistral.ai/v1/");
    ("deepinfra", "https://api.deepinfra.com/v1/openai/");
    ("vllm", "http://localhost:8000/v1/");
    ("groq", "https://api.groq.com/openai/v1/");
    ("sambanova", "https://api.sambanova.ai/v1/");
    ("text-gen-webui", "http://127.0.0.1:5000/v1/");
    ("openrouter", "https://openrouter.ai/api/v1/");
    ("cerebras", "https://api.cerebras.ai/v1/");
    ("kindo", "https://llm.kindo.ai/v1/");
    ("msty", "http://localhost:10000");
    ("nvidia", "https://integrate.api.nvidia.com/v1/");
    ("ovhcloud", "https://oai.endpoints.kepler.ai.cloud.ovh.net/v1/");
    ("scaleway", "https://api.scaleway.ai/v1/");
    ("fireworks", "https://api.fireworks.ai/inference/v1/");
    ("together", "https://api.together.xyz/v1/");
    ("ncompass", "https://api.ncompass.tech/v1");
    ("novita", "https://api.novita.ai/v3/openai");
    ("nebius", "https://api.studio.nebius.ai/v1/");
    ("function-network", "https://api.function.network/v1/");
    ("llama.cpp", "http://localhost:8000/");
    ("llamafile", "http://localhost:8000/");
    ("lmstudio", "http://localhost:1234/");
    ("ollama", "http://localhost:11434/v1/") ].

(** The registry: every identifier the [switch] has a [case] for. *)
Definition registry : list string :=
  dedicatedProviders ++ map fst openAICompatibleDefaults.

(** [config.provider] is one of the registered identifiers. *)
Definition registered (p : string) : bool :=
  existsb (String.eqb p) registry.

(** The three defaults written without the closing separator. *)
Definition unterminatedDefaults : list string := [ "msty"; "ncompass"; "novita" ].

End Factory.

(** ** The Anthropic adapter: packages/openai-adapters/src/apis/Anthropic.ts *)

Module Anthropic.

(** *** Constructor *)

Record AnthropicApi := mkAnthropicApi {
  config : Factory.LLMConfig;
  apiBase : string
}.

(** [this.apiBase = config.apiBase ?? this.apiBase], then a ["/"] is
    appended unless the value ends with one. *)
Definition constructor (cfg : Factory.LLMConfig) : AnthropicApi :=
  let b := Js.nullish (Factory.apiBase cfg) "https://api.anthropic.com/v1/" in
  {| config := cfg;
     apiBase := if Js.endsWith b "/" then b else b ++ "/" |}.

(** *** Request translation: [_convertToCleanAnthropicBody] *)

(** [stop?: string | null | Array<string>]; [None] stands for both
    [undefined] and [null], which the translator does not tell apart. *)
Inductive StopParam :=
| StopString (s : string)
| StopArray (l : list string).

(** The fields of the OpenAI-shaped request that the translator copies as
    they are, and [stop]. Messages, tools and tool choice are converted by
    code that does not touch the stop sequences and are left out. *)
Record ChatCompletionCreateParams := mkParams {
  model : string;
  max_tokens : option Z;
  top_p : option Z;
  temperature : option Z;
  stream : option bool;
  stop : option StopParam
}.

Record AnthropicBody := mkBody {
  body_model : string;
  body_max_tokens : Z;
  body_top_p : option Z;
  body_temperature : option Z;
  body_stream : option bool;
  stop_sequences : option (list string)
}.

(** [x.trim()] is not the empty string. *)
Definition nonBlank (x : string) : bool := negb (String.eqb (Js.trim x) EmptyString).

(** The local [stop] of [_convertToCleanAnthropicBody]. An array, empty or
    not, is truthy and is filtered; a string is kept when it is not blank;
    anything else leaves [stop] undefined. *)
Definition convertStop (s : option StopParam) : option (list string) :=
  match s with
  | Some (StopArray l) => Some (List.filter nonBlank l)
  | Some (StopString x) => if nonBlank x then Some [x] else None
  | None => None
  end.

Definition _convertToCleanAnthropicBody (oaiBody : ChatCompletionCreateParams)
  : AnthropicBody :=
  {| body_model := model oaiBody;
     body_max_tokens := Js.nullish (max_tokens oaiBody) 4096%Z;
     body_top_p := top_p oaiBody;
     body_temperature := temperature oaiBody;
     body_stream := stream oaiBody;
     stop_sequences := convertStop (stop oaiBody) |}.

(** [JSON.stringify] writes a key exactly when its value is not
    [undefined]: the serialized request has a [stop_sequences] field (an
    empty array included) exactly when the body's value is [Some _]. *)
Definition hasStopField (b : AnthropicBody) : bool :=
  match stop_sequences b with Some _ => true | None => false end.

(** *** Usage accounting *)

(** A vendor usage record, [Record<string, number>]. *)
Abbreviation VendorUsage := (gmap string Z).

(** [CompletionUsage]; [cached_tokens] is
    [prompt_tokens_details?.cached_tokens]. *)
Record CompletionUsage := mkUsage {
  completion_tokens : Z;
  prompt_tokens : Z;
  total_tokens : Z;
  cached_tokens : option Z
}.

(** [usage?.[key] ?? 0] *)
Definition field (usage : option VendorUsage) (key : string) : Z :=
  Js.nullish (usage ≫= (fun u => u !! key)) 0%Z.

(** The [usage] object built by [chatCompletionNonStream] from
    [completion.usage]. *)
Definition usageNonStream (usage : option VendorUsage) : CompletionUsage :=
  {| total_tokens := (field usage "input_tokens" + field usage "output_tokens")%Z;
     completion_tokens := field usage "output_tokens";
     prompt_tokens := field usage "input_tokens";
     cached_tokens := Some (field usage "cache_read_input_tokens") |}.

(** *** Stream decoding: [handleStreamResponse] *)

(** The parsed server-sent events, by [value.type]. *)
Inductive ContentBlock :=
| tool_use (id name : option string)
| other_block.

Inductive Delta :=
| text_delta (text : string)
| input_json_delta (partial_json : string)
| other_delta.

Inductive SseEvent :=
| content_block_start (content_block : ContentBlock)
| message_start (usage : option VendorUsage)
| message_delta (usage : option VendorUsage)
| content_block_delta (delta : Delta)
| content_block_stop
| other_event (type : string).

(** What [streamSse] delivers: the events in order, and the error it ends
    with when the transport fails. *)
Record SseStream := mkStream {
  events : list SseEvent;
  failure : option string
}.

Record ToolCallDelta := mkToolCallDelta {
  tc_id : string;
  tc_index : nat;
  tc_name : string;
  tc_arguments : string
}.

Record ChatCompletionChunk := mkChunk {
  chunk_model : string;
  chunk_content : option string;
  chunk_tool_calls : option (list ToolCallDelta);
  chunk_usage : option CompletionUsage
}.

(** Modelled from the spec: the chunk builders [chatChunk],
    [chatChunkFromDelta] and [usageChatChunk] of [util.ts], which is not
    among the sources. A canonical chunk has a model id, an optional text
    delta, an optional list of tool-call deltas and an optional usage
    record; each builder fills the parts its call site passes and leaves
    the others absent. *)
Definition chatChunk (content model : string) : ChatCompletionChunk :=
  {| chunk_model := model; chunk_content := Some content;
     chunk_tool_calls := None; chunk_usage := None |}.

Definition chatChunkFromDelta (model : string) (tool_calls : list ToolCallDelta)
  : ChatCompletionChunk :=
  {| chunk_model := model; chunk_content := None;
     chunk_tool_calls := Some tool_calls; chunk_usage := None |}.

Definition usageChatChunk (model : string) (usage : CompletionUsage)
  : ChatCompletionChunk :=
  {| chunk_model := model; chunk_content := None;
     chunk_tool_calls := None; chunk_usage := Some usage |}.

(** The locals of the generator. *)
Record DecodeState := mkState {
  lastToolUseId : option string;
  lastToolUseName : option string;
  usage : CompletionUsage
}.

Definition initialState : DecodeState :=
  {| lastToolUseId := None; lastToolUseName := None;
     usage := {| completion_tokens := 0; prompt_tokens := 0;
                 total_tokens := 0; cached_tokens := None |} |}.

(** One turn of the [for await] loop: the new locals and the chunk yielded
    during the turn, or the message of the error thrown. *)
Definition step (model : string) (st : DecodeState) (value : SseEvent)
  : DecodeState * option ChatCompletionChunk + string :=
  match value with
  | content_block_start (tool_use id name) =>
      inl ({| lastToolUseId := id; lastToolUseName := name; usage := usage st |}, None)
  | content_block_start other_block => inl (st, None)
  | message_start u =>
      inl ({| lastToolUseId := lastToolUseId st;
              lastToolUseName := lastToolUseName st;
              usage := {| completion_tokens := completion_tokens (usage st);
                          prompt_tokens := field u "input_tokens";
                          total_tokens := total_tokens (usage st);
                          cached_tokens := Some (field u "cache_read_input_tokens") |} |},
           None)
  | message_delta u =>
      inl ({| lastToolUseId := lastToolUseId st;
              lastToolUseName := lastToolUseName st;
              usage := {| completion_tokens := field u "output_tokens";
                          prompt_tokens := prompt_tokens (usage st);
                          total_tokens := total_tokens (usage st);
                          cached_tokens := cached_tokens (usage st) |} |},
           None)
  | content_block_delta (text_delta text) => inl (st, Some (chatChunk text model))
  | content_block_delta (input_json_delta partial_json) =>
      if negb (Js.truthy (lastToolUseId st)) || negb (Js.truthy (lastToolUseName st))
      then inr "No tool use found"
      else
        inl (st, Some (chatChunkFromDelta model
               [ {| tc_id := Js.nullish (lastToolUseId st) EmptyString;
                    tc_index := 0;
                    tc_name := Js.nullish (lastToolUseName st) EmptyString;
                    tc_arguments := partial_json |} ]))
  | content_block_delta other_delta => inl (st, None)
  | content_block_stop =>
      inl ({| lastToolUseId := None; lastToolUseName := None; usage := usage st |}, None)
  | other_event _ => inl (st, None)
  end.

(** How a generator run ends. *)
Inductive Completion :=
| Returned
| Threw (message : string).

(** The [for await] loop: the chunks yielded so far, and the locals at the
    end of the events or the error that stopped the loop. *)
Fixpoint loop (model : string) (st : DecodeState) (evs : list SseEvent)
  : list ChatCompletionChunk * (DecodeState + string) :=
  match evs with
  | [] => ([], inl st)
  | value :: rest =>
      match step model st value with
      | inr message => ([], inr message)
      | inl (st', yielded) =>
          let '(chunks, r) := loop model st' rest in
          (match yielded with Some c => c :: chunks | None => chunks end, r)
      end
  end.

(** [handleStreamResponse(response, model)]: everything the generator
    yields, and how it ends. The usage chunk is yielded after the loop,
    when neither the loop nor the event source has thrown. *)
Definition handleStreamResponse (response : SseStream) (model : string)
  : list ChatCompletionChunk * Completion :=
  let '(chunks, r) := loop model initialState (events response) in
  match r, failure response with
  | inr message, _ => (chunks, Threw message)
  | inl _, Some message => (chunks, Threw message)
  | inl st, None =>
      ((chunks ++
         [ usageChatChunk model
             {| completion_tokens := completion_tokens (usage st);
                prompt_tokens := prompt_tokens (usage st);
                total_tokens := (completion_tokens (usage st) + prompt_tokens (usage st))%Z;
                cached_tokens := cached_tokens (usage st) |} ])%list,
       Returned)
  end.

(** A terminal chunk is one that carries a usage record. *)
Definition isTerminal (c : ChatCompletionChunk) : bool :=
  match chunk_usage c with Some _ => true | None => false end.

End Anthropic.

(** ** JSON values and the two library calls of [resolveSerializedConfig] *)

Module Json.

Inductive Json :=
| JNull
| JBool (b : bool)
| JNum (n : Z)
| JString (s : string)
| JArray (items : list Json)
| JObject (members : list (string * Json)).

(** A configuration object: its keys and their values. *)
Abbreviation Obj := (gmap string Json).

(** The strings of an array of strings. *)
Definition stringItem (j : Json) : option string :=
  match j with JString s => Some s | _ => None end.

(** Later members win, as in [JSON.parse]. *)
Definition toObj (members : list (string * Json)) : Obj :=
  fold_left (fun m kv => <[kv.1 := kv.2]> m) members ∅.

(** *** A reference parser

    [parse] reads the JSON texts built from objects, arrays, strings
    without escapes, unsigned integers, [true], [false] and [null]; on any
    other text it fails, which stands for the exception of the library
    parser. It is the instance of [JSONC.parse] used to run the loader on
    concrete files; the loader itself is written against an arbitrary
    parser. *)

Definition isJsonSpace (c : ascii) : bool :=
  let n := nat_of_ascii c in
  ((n =? 32) || (n =? 9) || (n =? 10) || (n =? 13))%nat.

Fixpoint skipSpace (s : string) : string :=
  match s with
  | String c rest => if isJsonSpace c then skipSpace rest else s
  | EmptyString => s
  end.

(** The characters up to the closing quote, and what follows it. *)
Fixpoint readString (s : string) : option (string * string) :=
  match s with
  | EmptyString => None
  | String c rest =>
      if Ascii.eqb c Js.dquote then Some (EmptyString, rest)
      else if Ascii.eqb c "\"%char then None
      else
        match readString rest with
        | Some (body, after) => Some (String c body, after)
        | None => None
        end
  end.

Definition digit (c : ascii) : option Z :=
  let n := nat_of_ascii c in
  if ((48 <=? n) && (n <=? 57))%nat then Some (Z.of_nat (n - 48)) else None.

Fixpoint readDigits (acc : Z) (s : string) : Z * string :=
  match s with
  | String c rest =>
      match digit c with
      | Some d => readDigits (10 * acc + d) rest
      | None => (acc, s)
      end
  | EmptyString => (acc, s)
  end.

Fixpoint parseValue (fuel : nat) (s : string) : option (Json * string) :=
  match fuel with
  | O => None
  | S fuel' =>
      match skipSpace s with
      | String "n" (String "u" (String "l" (String "l" rest))) => Some (JNull, rest)
      | String "t" (String "r" (String "u" (String "e" rest))) => Some (JBool true, rest)
      | String "f" (String "a" (String "l" (String "s" (String "e" rest)))) =>
          Some (JBool false, rest)
      | String c rest =>
          if Ascii.eqb c Js.dquote then
            match readString rest with
            | Some (body, after) => Some (JString body, after)
            | None => None
            end
          else if Ascii.eqb c "["%char then
            match skipSpace rest with
            | String "]" after => Some (JArray [], after)
            | _ =>
                match parseItems fuel' rest with
                | Some (items, after) => Some (JArray items, after)
                | None => None
                end
            end
          else if Ascii.eqb c "{"%char then
            match skipSpace rest with
            | String "}" after => Some (JObject [], after)
            | _ =>
                match parseMembers fuel' rest with
                | Some (members, after) => Some (JObject members, after)
                | None => None
                end
            end
          else
            match digit c with
            | Some d => let '(n, after) := readDigits d rest in Some (JNum n, after)
            | None => None
            end
      | EmptyString => None
      end
  end
with parseItems (fuel : nat) (s : string) : option (list Json * string) :=
  match fuel with
  | O => None
  | S fuel' =>
      match parseValue fuel' s with
      | Some (v, after) =>
          match skipSpace after with
          | String "," more =>
              match parseItems fuel' more with
              | Some (vs, final) => Some (v :: vs, final)
              | None => None
              end
          | String "]" final => Some ([v], final)
          | _ => None
          end
      | None => None
      end
  end
with parseMembers (fuel : nat) (s : string)
  : option (list (string * Json) * string) :=
  match fuel with
  | O => None
  | S fuel' =>
      match skipSpace s with
      | String c rest =>
          match (if Ascii.eqb c Js.dquote then readString rest else None) with
          | Some (key, after) =>
              match skipSpace after with
              | String ":" valueText =>
                  match parseValue fuel' valueText with
                  | Some (v, after') =>
                      match skipSpace after' with
                      | String "," more =>
                          match parseMembers fuel' more with
                          | Some (kvs, final) => Some ((key, v) :: kvs, final)
                          | None => None
                          end
                      | String "}" final => Some ([(key, v)], final)
                      | _ => None
                      end
                  | None => None
                  end
              | _ => None
              end
          | None => None
          end
      | _ => None
      end
  end.

(** A whole text, which has to be one object. *)
Definition parse (text : string) : option Obj :=
  match parseValue (S (String.length text)) text with
  | Some (JObject members, rest) =>
      match skipSpace rest with
      | EmptyString => Some (toObj members)
      | _ => None
      end
  | _ => None
  end.

(** *** Literal replacement

    [replaceAll text pattern replacement] replaces, from left to right,
    every occurrence of the non-empty [pattern]. It is
    [text.replaceAll(new RegExp(pattern, "g"), replacement)] for a pattern
    without regular-expression operators and a replacement without [$]. *)
Fixpoint replaceFrom (fuel : nat) (text pattern replacement : string) : string :=
  match fuel with
  | O => text
  | S fuel' =>
      match text with
      | EmptyString => EmptyString
      | String c rest =>
          if String.prefix pattern text
          then replacement ++
               replaceFrom fuel'
                 (substring (String.length pattern)
                    (String.length text - String.length pattern) text)
                 pattern replacement
          else String c (replaceFrom fuel' rest pattern replacement)
      end
  end.

Definition replaceAll (text pattern replacement : string) : string :=
  match pattern with
  | EmptyString => text
  | _ => replaceFrom (String.length text) text pattern replacement
  end.

End Json.

(** ** The configuration loader: core/config/load.ts *)

Module ConfigLoad.
Import Json.

(** What the loader reads besides its arguments: the file system, the
    process environment, the variables of the [.env] file of the
    configuration directory ([getContinueDotEnv()]), [os.platform()], and
    the answer of [isSupportedLanceDbCpuTargetForLinux(ide)]. The path
    helpers of [../util/paths] may create the files they name; [files] is
    the file system as [fs.readFileSync] finds it, once they have
    returned. *)
Record Ambient := mkAmbient {
  files : gmap string string;
  process_env : gmap string string;
  dotenv : gmap string string;
  platform : string;
  lanceDbCpuSupported : bool
}.

Record ConfigValidationError := mkError {
  fatal : bool;
  message : string
}.

Record IdeSettings := mkIdeSettings {
  remoteConfigServerUrl : option string
}.

Record ConfigResult := mkResult {
  config : option Obj;
  errors : option (list ConfigValidationError);
  configLoadInterrupted : bool
}.

(** What a call of [loadSerializedConfig] leaves behind: the value it
    returns ([None] when it throws), the object the caller passed as
    [overrideConfigJson] as it is after the call, and whether the remote
    configuration failed to load ([console.warn]). *)
Record LoadOutcome := mkOutcome {
  returned : option ConfigResult;
  overrideAfter : option Obj;
  warnedRemote : bool
}.

(** The local [config] of [loadSerializedConfig] and the caller's object:
    [shared] tells whether [config] still is that very object, so that an
    assignment to a property of [config] is seen by the caller. *)
Record LoaderState := mkLoader {
  cur : Obj;
  caller : option Obj;
  shared : bool
}.

(** [config[key] = value] *)
Definition assign (key : string) (value : Json) (st : LoaderState) : LoaderState :=
  {| cur := <[key := value]> (cur st);
     caller := if shared st then Some (<[key := value]> (cur st)) else caller st;
     shared := shared st |}.

(** [config = merged]: the variable now names the object the merge made. *)
Definition rebind (merged : Obj) (st : LoaderState) : LoaderState :=
  {| cur := merged; caller := caller st; shared := false |}.

(** [`"${s}"`] *)
Definition quoted (s : string) : string :=
  String Js.dquote (s ++ String Js.dquote EmptyString).

(** [workspaceConfig.mergeBehavior] *)
Definition mergeBehavior (workspaceConfig : Obj) : option string :=
  match workspaceConfig !! "mergeBehavior" with
  | Some (JString s) => Some s
  | _ => None
  end.

(** [errors?.some((error) => error.fatal)] *)
Definition someFatal (errs : option (list ConfigValidationError)) : bool :=
  match errs with
  | Some l => existsb fatal l
  | None => false
  end.

(** The text of a built-in function in a template literal. *)
Definition nativeFunction (name : string) : string :=
  "function " ++ name ++ "() { [native code] }".

(** What a name that the environment object inherits from
    [Object.prototype] prints as in a template literal; [None] for a name
    that is not inherited. *)
Definition objectPrototypeText (name : string) : option string :=
  if String.eqb name "constructor" then Some (nativeFunction "Object")
  else if String.eqb name "__proto__" then Some "[object Object]"
  else if existsb (String.eqb name)
            [ "__defineGetter__"; "__defineSetter__"; "hasOwnProperty";
              "__lookupGetter__"; "__lookupSetter__"; "isPrototypeOf";
              "propertyIsEnumerable"; "toString"; "valueOf"; "toLocaleString" ]
  then Some (nativeFunction name)
  else None.

(** [envVar in env], and then [`${env[envVar]}`]: the environment object is
    a plain object, so that a name is [in] it when it is one of its keys or
    is inherited from [Object.prototype]. *)
Definition envValue (env : gmap string string) (envVar : string) : option string :=
  match env !! envVar with
  | Some value => Some value
  | None => objectPrototypeText envVar
  end.

Section Loader.

(** [JSONC.parse] of the comment-json package; [None] when it throws. *)
Variable JSONC_parse : string -> option Obj.
(** [content.replaceAll(new RegExp(source, "g"), replacement)] *)
Variable replaceAll : string -> string -> string -> string.
(** [validateConfig] of [./validation.js] *)
Variable validateConfig : Obj -> option (list ConfigValidationError).
(** [mergeJson(first, second, mergeBehavior, configMergeKeys)] of
    [../util/merge]; it is taken to return a new object. *)
Variable mergeJson : Obj -> Obj -> option string -> Obj.
(** The paths returned by [getConfigJsonPath()] and
    [getConfigJsonPathForRemote(url)]. *)
Variable getConfigJsonPath : string.
Variable getConfigJsonPathForRemote : string -> string.

(** [{ ...process.env, ...getContinueDotEnv() }]: the [.env] file wins. *)
Definition mergedEnv (w : Ambient) : gmap string string :=
  dotenv w ∪ process_env w.

(** The [forEach] over [config.env]: a listed name that is [in] the
    environment object is replaced by its value. *)
Definition substituteEnv (env : gmap string string) (content : string)
  (names : list string) : string :=
  fold_left
    (fun content envVar =>
       match envValue env envVar with
       | Some value => replaceAll content (quoted envVar) (quoted value)
       | None => content
       end)
    names content.

(** The names listed by [config.env] when it is an array. *)
Definition envNames (config : Obj) : option (list string) :=
  match config !! "env" with
  | Some (JArray items) => Some (omap stringItem items)
  | _ => None
  end.

(** [resolveSerializedConfig(filepath)]; [None] when reading or parsing
    throws. *)
Definition resolveSerializedConfig (w : Ambient) (filepath : string) : option Obj :=
  match files w !! filepath with
  | None => None
  | Some content =>
      match JSONC_parse content with
      | None => None
      | Some config =>
          JSONC_parse
            (match envNames config with
             | Some names => substituteEnv (mergedEnv w) content names
             | None => content
             end)
      end
  end.

(** The object [config] names before validation; [None] when
    [resolveSerializedConfig] throws. *)
Definition initialConfig (overrideConfigJson : option Obj) (w : Ambient) : option Obj :=
  match overrideConfigJson with
  | Some c => Some c
  | None => resolveSerializedConfig w getConfigJsonPath
  end.

(** Lines 140-142: the telemetry default. *)
Definition defaultTelemetry (st : LoaderState) : LoaderState :=
  match cur st !! "allowAnonymousTelemetry" with
  | None => assign "allowAnonymousTelemetry" (JBool true) st
  | Some _ => st
  end.

(** Lines 144-153: the remote configuration, and whether it failed. *)
Definition mergeRemote (ideSettings : IdeSettings) (w : Ambient)
  (st : LoaderState) : LoaderState * bool :=
  if Js.truthy (remoteConfigServerUrl ideSettings) then
    match resolveSerializedConfig w
            (getConfigJsonPathForRemote
               (Js.nullish (remoteConfigServerUrl ideSettings) EmptyString)) with
    | Some remoteConfigJson =>
        (rebind (mergeJson (cur st) remoteConfigJson (Some "merge")) st, false)
    | None => (st, true)
    end
  else (st, false).

(** Lines 155-162: the workspace configurations, in order. *)
Definition mergeWorkspaces (workspaceConfigs : list Obj) (st : LoaderState)
  : LoaderState :=
  fold_left
    (fun st workspaceConfig =>
       rebind (mergeJson (cur st) workspaceConfig (mergeBehavior workspaceConfig)) st)
    workspaceConfigs st.

(** Lines 164-166. *)
Definition disableIndexingOnLinux (w : Ambient) (st : LoaderState) : LoaderState :=
  if String.eqb (platform w) "linux" && negb (lanceDbCpuSupported w)
  then assign "disableIndexing" (JBool true) st
  else st.

Definition loadSerializedConfig (workspaceConfigs : list Obj)
  (ideSettings : IdeSettings) (overrideConfigJson : option Obj) (w : Ambient)
  : LoadOutcome :=
  match initialConfig overrideConfigJson w with
  | None =>
      {| returned := None; overrideAfter := overrideConfigJson;
         warnedRemote := false |}
  | Some config0 =>
      let errs := validateConfig config0 in
      if someFatal errs then
        {| returned :=
             Some {| errors := errs; config := None;
                     configLoadInterrupted := true |};
           overrideAfter := overrideConfigJson;
           warnedRemote := false |}
      else
        let st0 := {| cur := config0; caller := overrideConfigJson;
                      shared := bool_decide (is_Some overrideConfigJson) |} in
        let st1 := defaultTelemetry st0 in
        let '(st2, warned) := mergeRemote ideSettings w st1 in
        let st3 := mergeWorkspaces workspaceConfigs st2 in
        let st4 := disableIndexingOnLinux w st3 in
        {| returned :=
             Some {| config := Some (cur st4); errors := errs;
                     configLoadInterrupted := false |};
           overrideAfter := caller st4;
           warnedRemote := warned |}
  end.

End Loader.

(** [config.allowAnonymousTelemetry === true] *)
Definition telemetryOn (o : Obj) : Prop :=
  o !! "allowAnonymousTelemetry" = Some (JBool true).

(** Merging [second] in, with the given behaviour, leaves an enabled
    [allowAnonymousTelemetry] enabled. *)
Definition keepsTelemetryFor (mergeJson : Obj -> Obj -> option string -> Obj)
  (second : Obj) (behavior : option string) : Prop :=
  forall first, telemetryOn first -> telemetryOn (mergeJson first second behavior).

(** *** The model lists of [intermediateToFinalConfig] *)

(** The properties of a constructed model that this part reads or writes. *)
Record BaseLLM := mkLLM {
  providerName : string;
  title : option string;
  requestOptions : gmap string string;
  roles : option (list string)
}.

(** [applyRequestOptionsToModels(models, config, roles)]: the options of
    the whole configuration win over the model's own; [roles] is filled in
    when the model has none and a default is given. *)
Definition applyRequestOptionsToModels (models : list BaseLLM)
  (configRequestOptions : gmap string string) (defaultRoles : option (list string))
  : list BaseLLM :=
  map (fun model =>
         {| providerName := providerName model;
            title := title model;
            requestOptions := configRequestOptions ∪ requestOptions model;
            roles := match defaultRoles with
                     | Some r => Some (Js.nullish (roles model) r)
                     | None => roles model
                     end |})
      models.

Definition isFreeTrial (m : BaseLLM) : bool :=
  String.eqb (providerName m) "free-trial".

(** Lines 347-352: the filter, then the test on the filtered array. The
    result is the new [models] and the value of [warnAboutFreeTrial]
    after the [if]. *)
Definition dropFreeTrial (models : list BaseLLM) : list BaseLLM * bool :=
  let warnAboutFreeTrial := false in
  let models := List.filter (fun model => negb (isFreeTrial model)) models in
  if negb (Nat.eqb (List.length (List.filter isFreeTrial models)) 0)
  then (models, true)
  else (models, warnAboutFreeTrial).

(** An entry of [config.tabAutocompleteModel] after construction: a
    description with a title gives what [llmFromDescription] returned, any
    other entry a [CustomLLMClass] instance. *)
Inductive AutocompleteEntry :=
| FromDescription (llm : option BaseLLM)
| Custom (llm : BaseLLM).

(** The pushes made while [autocompleteConfigs.map] runs: the callback of
    an entry without a title pushes its [CustomLLMClass] instance before it
    returns, the callback of a described entry stops at its [await]. *)
Definition customModels (entries : list AutocompleteEntry) : list BaseLLM :=
  omap (fun e => match e with Custom llm => Some llm | _ => None end) entries.

(** The pushes made when the callbacks of the described entries resume,
    after every synchronous push, and the flag. The promises are taken in
    the order in which they were made; the order in which they resolve is
    decided by [llmFromDescription]. *)
Fixpoint describedModels (entries : list AutocompleteEntry) (warn : bool)
  : list BaseLLM * bool :=
  match entries with
  | [] => ([], warn)
  | FromDescription None :: rest => describedModels rest warn
  | FromDescription (Some llm) :: rest =>
      if isFreeTrial llm then describedModels rest true
      else let '(kept, w) := describedModels rest warn in (llm :: kept, w)
  | Custom _ :: rest => describedModels rest warn
  end.

(** Lines 355-385: the models kept for autocompletion, the custom ones
    first, and the flag. *)
Definition tabAutocomplete (entries : list AutocompleteEntry) (warn : bool)
  : list BaseLLM * bool :=
  let '(described, w) := describedModels entries warn in
  ((customModels entries ++ described)%list, w).

(** [config.embeddingsProvider] and [config.reranker]: an injected model,
    or a description naming its provider. *)
Inductive ProviderRef :=
| Injected
| Described (name : string).

(** The assignments to [warnAboutFreeTrial] in [getEmbeddingsILLM] and
    [getRerankingILLM]. *)
Definition warnFromRef (ref : option ProviderRef) (warn : bool) : bool :=
  match ref with
  | Some (Described name) => if String.eqb name "free-trial" then true else warn
  | _ => warn
  end.

(** The inputs of the model part, after the asynchronous construction of
    lines 261-338. *)
Record Intermediate := mkIntermediate {
  builtModels : list BaseLLM;
  configRequestOptions : gmap string string;
  autocompleteEntries : list AutocompleteEntry;
  embeddingsProvider : option ProviderRef;
  reranker : option ProviderRef
}.

Record FinalModels := mkFinal {
  chat : list BaseLLM;
  autocomplete : list BaseLLM;
  warnAfterChat : bool;
  warnAboutFreeTrial : bool
}.

Definition freeTrialMessage : string :=
  "Model provider 'free-trial' is no longer supported, will be ignored".

(** [modelsByRole.chat], [modelsByRole.autocomplete] and the flag, as
    [intermediateToFinalConfig] computes them; [warnAfterChat] is the flag
    at line 353. *)
Definition intermediateToFinalConfig (i : Intermediate) : FinalModels :=
  let models :=
    applyRequestOptionsToModels (builtModels i) (configRequestOptions i)
      (Some ["chat"; "apply"; "edit"; "summarize"]) in
  let '(models, warn0) := dropFreeTrial models in
  let '(tabAutocompleteModels, warn1) := tabAutocomplete (autocompleteEntries i) warn0 in
  let tabAutocompleteModels :=
    applyRequestOptionsToModels tabAutocompleteModels (configRequestOptions i) None in
  let warn2 := warnFromRef (embeddingsProvider i) warn1 in
  let warn3 := warnFromRef (reranker i) warn2 in
  {| chat := models; autocomplete := tabAutocompleteModels;
     warnAfterChat := warn0; warnAboutFreeTrial := warn3 |}.

(** The errors pushed because of the flag. *)
Definition freeTrialErrors (f : FinalModels) : list ConfigValidationError :=
  if warnAboutFreeTrial f
  then [ {| fatal := false; message := freeTrialMessage |} ]
  else [].

End ConfigLoad.

(** ** Concrete inputs and readings shared by the statements below *)

Module Reading.
Import Json.

(** The [apiBase] a constructed client works with, where the sources
    decide it: the field the Anthropic constructor sets, and for the
    generic OpenAI client the [apiBase] of the configuration object the
    factory builds for it. *)
Definition clientApiBase (client : Factory.BaseLlmApi) : option string :=
  match client with
  | Factory.new_AnthropicApi cfg => Some (Anthropic.apiBase (Anthropic.constructor cfg))
  | Factory.new_OpenAIApi cfg => Factory.apiBase cfg
  | _ => None
  end.

(** A stop-sequence input made of blank strings only. *)
Definition onlyBlank (s : Anthropic.StopParam) : bool :=
  match s with
  | Anthropic.StopString x => negb (Anthropic.nonBlank x)
  | Anthropic.StopArray l => forallb (fun x => negb (Anthropic.nonBlank x)) l
  end.

(** A merge by overlay, in which the keys of the second object replace
    those of the first. It is one of the functions the parameter
    [mergeJson] of the loader ranges over, and serves to run the loader on
    concrete workspace configurations. *)
Definition overlayMerge (first second : Obj) (behavior : option string) : Obj :=
  second ∪ first.

(** The text of a configuration file that lists a variable under [env] and
    uses its name as the API key: an object with the members [env], the
    array holding the string [API_KEY], and [apiKey], the string
    [API_KEY]. *)
Definition envConfigText : string :=
  "{" ++ ConfigLoad.quoted "env" ++ ": [" ++ ConfigLoad.quoted "API_KEY" ++ "], "
      ++ ConfigLoad.quoted "apiKey" ++ ": " ++ ConfigLoad.quoted "API_KEY" ++ "}".

(** The usage keys the Anthropic adapter reads. *)
Definition usageKeys : list string :=
  [ "input_tokens"; "output_tokens"; "cache_read_input_tokens" ].

End Reading.

(** ** More of the sources: definitions *)

(** *** index.ts: the configuration a client was built with *)

Module Clients.
Import Factory.

(** The argument of the constructor call; [MockApi] has none. *)
Definition clientConfig (client : BaseLlmApi) : option LLMConfig :=
  match client with
  | new_OpenAIApi c | new_AzureApi c | new_BedrockApi c | new_CohereApi c
  | new_AnthropicApi c | new_GeminiApi c | new_JinaApi c | new_DeepSeekApi c
  | new_MoonshotApi c | new_RelaceApi c | new_InceptionApi c | new_WatsonXApi c
  | new_VertexAIApi c | new_LlamastackApi c | new_ContinueProxyApi c => Some c
  | new_MockApi => None
  end.

(** [config] with its [apiBase] replaced. *)
Definition withApiBase (b : option string) (config : LLMConfig) : LLMConfig :=
  {| provider := provider config; apiKey := apiKey config;
     apiBase := b; extras := extras config |}.

End Clients.

(** *** Anthropic.ts: the conversion of the messages *)

Module AnthropicMessages.

(** A part of an array content: a text part ([part.type === "text"], whose
    [text] may be missing), a part of another type that has an
    [image_url.url], or a part of another type that has none (audio, file,
    refusal). *)
Inductive ContentPart :=
| TextPart (text : option string)
| ImageUrlPart (url : string)
| OtherPart.

(** [message.content]: a string, an array of parts, or [null]/[undefined]. *)
Inductive Content :=
| ContentString (s : string)
| ContentParts (parts : list ContentPart)
| ContentAbsent.

(** An entry of [message.tool_calls]; [function] may be missing. *)
Record ToolCall := mkToolCall {
  call_id : string;
  call_name : option string;
  call_arguments : option string
}.

Record Message := mkMessage {
  role : string;
  content : Content;
  tool_call_id : option string;
  tool_calls : option (list ToolCall)
}.

(** The content blocks the conversion builds or keeps. *)
Inductive AnthropicPart :=
| tool_result (tool_use_id : option string) (result : string)
| tool_use_block (id : string) (name : option string) (input : Json.Json)
| text_block (text : string)
| image_block (media_type : string) (data : option string).

(** A converted message: a new object with a role and blocks, the input
    message itself, or the input message with its content replaced
    ([{ ...message, content }]). *)
Inductive AnthropicMessage :=
| rebuilt (new_role : string) (blocks : list AnthropicPart)
| unchanged (message : Message)
| with_content (message : Message) (blocks : list AnthropicPart).


(** The characters before the first comma. *)
Fixpoint untilComma (s : string) : string :=
  match s with
  | EmptyString => EmptyString
  | String c rest =>
      if Ascii.eqb c ","%char then EmptyString else String c (untilComma rest)
  end.

(** The characters after the first comma, when there is one. *)
Fixpoint afterComma (s : string) : option string :=
  match s with
  | EmptyString => None
  | String c rest => if Ascii.eqb c ","%char then Some rest else afterComma rest
  end.

(** [url.split(",")[1]] *)
Definition secondSegment (url : string) : option string :=
  option_map untilComma (afterComma url).

(** [(part.text?.trim() ?? "") === ""] *)
Definition blankText (text : option string) : bool :=
  String.eqb (Js.nullish (option_map Js.trim text) EmptyString) EmptyString.

(** Reading [part.image_url.url] of a part that is not a text part and has
    no [image_url] throws a [TypeError]. *)
Definition partThrows (part : ContentPart) : bool :=
  match part with
  | OtherPart => true
  | _ => false
  end.

(** The callback of [message.content.map] followed by the filter on
    [null], for a part on which the callback does not throw: [None] is a
    dropped part. *)
Definition convertPart (part : ContentPart) : option AnthropicPart :=
  match part with
  | TextPart text =>
      if blankText text then None
      else Some (text_block (Js.nullish text EmptyString))
  | ImageUrlPart url => Some (image_block "image/jpeg" (secondSegment url))
  | OtherPart => None
  end.

(** [part.text] as [join] prints it: a missing text prints as nothing. *)
Definition partText (part : ContentPart) : string :=
  match part with
  | TextPart (Some t) => t
  | _ => EmptyString
  end.

(** [message.content.map((part) => part.text).join("")] *)
Definition joinTexts (parts : list ContentPart) : string :=
  fold_right String.append EmptyString (map partText parts).

Section Convert.

(** [safeParseArgs(args, context)] of [../util/parseArgs.js] *)
Variable safeParseArgs : option string -> string -> Json.Json.

Definition toolUse (toolCall : ToolCall) : AnthropicPart :=
  tool_use_block (call_id toolCall) (call_name toolCall)
    (safeParseArgs (call_arguments toolCall)
       (Js.nullish (call_name toolCall) "undefined" ++ " " ++ call_id toolCall)).

(** The callback of [msgs.map] in [_convertMessages]; [None] is a
    [TypeError]: reading [.map] on the missing content of a tool result, or
    reading [.url] on the missing [image_url] of a part. *)
Definition convertMessage (message : Message) : option AnthropicMessage :=
  if String.eqb (role message) "tool" then
    match content message with
    | ContentString s => Some (rebuilt "user" [tool_result (tool_call_id message) s])
    | ContentParts parts =>
        Some (rebuilt "user" [tool_result (tool_call_id message) (joinTexts parts)])
    | ContentAbsent => None
    end
  else
    match (if String.eqb (role message) "assistant" then tool_calls message else None),
          content message with
    | Some calls, _ => Some (rebuilt "assistant" (map toolUse calls))
    | None, ContentParts parts =>
        if existsb partThrows parts then None
        else Some (with_content message (omap convertPart parts))
    | None, _ => Some (unchanged message)
    end.

(** [_convertMessages(msgs)] *)
Definition _convertMessages (msgs : list Message) : option (list AnthropicMessage) :=
  mapM convertMessage msgs.

Definition isSystem (msg : Message) : bool := String.eqb (role msg) "system".

(** [oaiBody.messages.find((msg) => msg.role === "system")?.content] *)
Definition systemMessage (messages : list Message) : Content :=
  match List.find isSystem messages with
  | Some msg => content msg
  | None => ContentAbsent
  end.

(** The [system] field: a one-block array around a truthy system content,
    the falsy value itself otherwise. *)
Inductive SystemField :=
| system_blocks (text : Content)
| system_as_is (value : Content).

Definition truthyContent (c : Content) : bool :=
  match c with
  | ContentString s => negb (String.eqb s EmptyString)
  | ContentParts _ => true
  | ContentAbsent => false
  end.

Definition systemField (messages : list Message) : SystemField :=
  let systemMessage := systemMessage messages in
  if truthyContent systemMessage
  then system_blocks systemMessage
  else system_as_is systemMessage.

(** The [messages] field of [_convertToCleanAnthropicBody]. *)
Definition bodyMessages (messages : list Message) : option (list AnthropicMessage) :=
  _convertMessages (List.filter (fun msg => negb (isSystem msg)) messages).

End Convert.

(** The texts of the text blocks, in order. *)
Definition blockTexts (blocks : list AnthropicPart) : list string :=
  omap (fun b => match b with text_block t => Some t | _ => None end) blocks.

(** The texts of the text parts that have one, in order. *)
Definition partTexts (parts : list ContentPart) : list string :=
  omap (fun p => match p with TextPart (Some t) => Some t | _ => None end) parts.


(** A message whose parts are converted one by one: neither a tool result
    nor an assistant message with tool calls. *)
Definition convertedByParts (m : Message) : bool :=
  negb (String.eqb (role m) "tool")
  && negb (String.eqb (role m) "assistant"
           && match tool_calls m with Some _ => true | None => false end).

(** A message [convertMessage] cannot convert: a tool result without
    content, or a message converted part by part that has a part of another
    type without [image_url]. *)
Definition unconvertible (m : Message) : bool :=
  String.eqb (role m) "tool"
  && match content m with ContentAbsent => true | _ => false end
  || convertedByParts m
     && match content m with
        | ContentParts parts => existsb partThrows parts
        | _ => false
        end.


End AnthropicMessages.

(** *** Anthropic.ts: what a stream of events says *)

Module StreamReading.
Import Anthropic.

(** The texts of the text deltas, in order. *)
Definition textDeltas (evs : list SseEvent) : list string :=
  omap (fun ev => match ev with
                  | content_block_delta (text_delta t) => Some t
                  | _ => None
                  end) evs.

(** The argument fragments of the tool-call deltas, in order. *)
Definition jsonFragments (evs : list SseEvent) : list string :=
  omap (fun ev => match ev with
                  | content_block_delta (input_json_delta pj) => Some pj
                  | _ => None
                  end) evs.

(** The argument fragments carried by the chunks, in order. *)
Definition chunkFragments (chunks : list ChatCompletionChunk) : list string :=
  concat (map (fun c => map tc_arguments (Js.nullish (chunk_tool_calls c) [])) chunks).

(** The events the [switch] has a branch with an effect for. *)
Definition significant (ev : SseEvent) : bool :=
  match ev with
  | other_event _ | content_block_start other_block
  | content_block_delta other_delta => false
  | _ => true
  end.

(** The usage of the last [message_start], and of the last
    [message_delta]. *)
Definition lastMessageStart (evs : list SseEvent) : option (option (gmap string Z)) :=
  last (omap (fun ev => match ev with message_start u => Some u | _ => None end) evs).

Definition lastMessageDelta (evs : list SseEvent) : option (option (gmap string Z)) :=
  last (omap (fun ev => match ev with message_delta u => Some u | _ => None end) evs).

(** Both locals of the open tool block are truthy. *)
Definition toolOpen (st : DecodeState) : bool :=
  Js.truthy (lastToolUseId st) && Js.truthy (lastToolUseName st).

End StreamReading.

(** *** load.ts: the merge keys, the shell escaping, the free-trial flag *)

Module LoadTs.
Import ConfigLoad.

(** What [configMergeKeys] reads of an array entry: [title], [name] and
    [params?.url], each possibly [undefined]. *)
Record Entry := mkEntry {
  entry_title : option string;
  entry_name : option string;
  entry_url : option string
}.

(** [a === b] on optional strings. *)
Definition sameString (a b : option string) : bool :=
  match a, b with
  | Some x, Some y => String.eqb x y
  | None, None => true
  | _, _ => false
  end.

(** [configMergeKeys.models] *)
Definition models_key (a b : Entry) : bool :=
  sameString (entry_title a) (entry_title b).

(** [configMergeKeys.contextProviders] *)
Definition contextProviders_key (a b : Entry) : bool :=
  if negb (sameString (entry_name a) (Some "http"))
     || negb (sameString (entry_name b) (Some "http"))
  then sameString (entry_name a) (entry_name b)
  else sameString (entry_name a) (entry_name b)
       && sameString (entry_url a) (entry_url b).

(** [configMergeKeys.slashCommands] and [configMergeKeys.customCommands] *)
Definition commands_key (a b : Entry) : bool :=
  sameString (entry_name a) (entry_name b).

(** [p.replace(/ /g, "\\ ")]: a backslash is put before every space. *)
Fixpoint escapeSpacesInPath (p : string) : string :=
  match p with
  | EmptyString => EmptyString
  | String c rest =>
      if Ascii.eqb c " "%char
      then String "\"%char (String " "%char (escapeSpacesInPath rest))
      else String c (escapeSpacesInPath rest)
  end.

(** The number of spaces of a path. *)
Fixpoint spaces (p : string) : nat :=
  match p with
  | EmptyString => 0
  | String c rest => (if Ascii.eqb c " "%char then 1 else 0) + spaces rest
  end.

(** Every space comes right after a backslash; [escaped] tells whether the
    previous character was one. *)
Fixpoint spacesGuarded (escaped : bool) (p : string) : bool :=
  match p with
  | EmptyString => true
  | String c rest =>
      (if Ascii.eqb c " "%char then escaped else true)
      && spacesGuarded (Ascii.eqb c "\"%char) rest
  end.

(** An autocomplete entry whose described model is a free-trial one. *)
Definition trialEntry (e : AutocompleteEntry) : bool :=
  match e with
  | FromDescription (Some llm) => isFreeTrial llm
  | _ => false
  end.

(** A description naming the free-trial provider. *)
Definition describedTrial (ref : option ProviderRef) : bool :=
  match ref with
  | Some (Described name) => String.eqb name "free-trial"
  | _ => false
  end.

(** The described models that could be built and are not free-trial
    ones. *)
Definition keptDescribed (entries : list AutocompleteEntry) : list BaseLLM :=
  omap (fun e => match e with
                 | FromDescription (Some llm) =>
                     if isFreeTrial llm then None else Some llm
                 | _ => None
                 end) entries.

End LoadTs.

(** * Properties *)

(** ** Strings *)

Section StringFacts.

Lemma substring_whole (s : string) : substring 0 (String.length s) s = s.
Proof. induction s as [|c s IH]; simpl; [reflexivity | now rewrite IH]. Qed.

Lemma substring_skip_append (b s : string) :
  substring (String.length b) (String.length s) (b ++ s) = s.
Proof.
  induction b as [|c b IH]; simpl; [apply substring_whole | exact IH].
Qed.

Lemma length_append (a b : string) :
  String.length (a ++ b) = (String.length a + String.length b)%nat.
Proof. induction a as [|c a IH]; simpl; [reflexivity | now rewrite IH]. Qed.

Lemma endsWith_append (b s : string) : Js.endsWith (b ++ s) s = true.
Proof.
  unfold Js.endsWith. rewrite length_append.
  apply andb_true_intro. split.
  - apply Nat.leb_le. lia.
  - replace (String.length b + String.length s - String.length s)%nat
      with (String.length b) by lia.
    rewrite substring_skip_append. apply String.eqb_refl.
Qed.

End StringFacts.

(** ** The factory *)

Section FactoryFacts.
Import Factory.

Lemma registered_In (p : string) : registered p = true <-> In p registry.
Proof.
  unfold registered. rewrite existsb_exists. split.
  - intros (x & Hx & E). apply String.eqb_eq in E. now subst.
  - intros H. exists p. split; [exact H | apply String.eqb_refl].
Qed.

(** The [switch] falls to its [default] exactly on the identifiers that
    are not registered. *)
Lemma constructLlmApi_registered (cfg : LLMConfig) :
  registered (provider cfg) = match constructLlmApi cfg with Some _ => true | None => false end.
Proof.
  unfold constructLlmApi.
  cbv [registered registry dedicatedProviders openAICompatibleDefaults
       List.app List.map fst existsb].
  generalize (provider cfg). intros p.
  repeat match goal with
         | |- context [String.eqb p ?s] =>
             destruct (String.eqb p s); cbn [orb]; try reflexivity
         end.
Qed.

End FactoryFacts.

(** C1. An identifier outside the registry makes [constructLlmApi] return
    [undefined] (no client), and an identifier of the registry makes it
    return a constructed client. *)
Theorem constructLlmApi_unsupported_or_client (cfg : Factory.LLMConfig) :
  (~ In (Factory.provider cfg) Factory.registry ->
     Factory.constructLlmApi cfg = None)
  /\ (In (Factory.provider cfg) Factory.registry ->
        exists client, Factory.constructLlmApi cfg = Some client).
Proof.
  pose proof (constructLlmApi_registered cfg) as E.
  pose proof (registered_In (Factory.provider cfg)) as R.
  destruct (Factory.constructLlmApi cfg) as [client|]; split; intros H.
  - exfalso. apply H, R, E.
  - now exists client.
  - reflexivity.
  - apply R in H. congruence.
Qed.

Lemma constructLlmApi_unsupported_or_client_witness :
  Factory.constructLlmApi
    {| Factory.provider := "acme"; Factory.apiKey := None;
       Factory.apiBase := None; Factory.extras := ∅ |} = None
  /\ exists client,
       Factory.constructLlmApi
         {| Factory.provider := "groq"; Factory.apiKey := Some "k";
            Factory.apiBase := None; Factory.extras := ∅ |} = Some client.
Proof.
  split.
  - apply (constructLlmApi_unsupported_or_client
             {| Factory.provider := "acme"; Factory.apiKey := None;
                Factory.apiBase := None; Factory.extras := ∅ |}).
    intros H. apply registered_In in H. vm_compute in H. discriminate.
  - apply (constructLlmApi_unsupported_or_client
             {| Factory.provider := "groq"; Factory.apiKey := Some "k";
                Factory.apiBase := None; Factory.extras := ∅ |}).
    apply registered_In. vm_compute. reflexivity.
Defined.

(** Case analysis on a row of a table of pairs given as a literal list:
    [tac] is run with the row's components substituted. *)
Ltac each_row Hin tac :=
  repeat (destruct Hin as [Hin | Hin]; [ injection Hin as <- <-; tac | ]);
  destruct Hin.

Section CompatibleFacts.
Import Factory.

(** Every row of the table is the [case] of the [switch] it was read from. *)
Lemma openAICompatible_case (p d : string) (cfg : LLMConfig) :
  In (p, d) openAICompatibleDefaults ->
  provider cfg = p ->
  constructLlmApi cfg = Some (openAICompatible d cfg).
Proof.
  intros Hin Hp. destruct cfg as [p' k b e]. simpl in Hp. subst p'.
  unfold openAICompatibleDefaults in Hin.
  each_row Hin ltac:(idtac; reflexivity).
Qed.

Lemma terminated_default (p d : string) :
  In (p, d) openAICompatibleDefaults ->
  ~ In p unterminatedDefaults ->
  Js.endsWith d "/" = true.
Proof.
  intros Hin Hout. unfold openAICompatibleDefaults in Hin.
  each_row Hin ltac:(idtac; first [ reflexivity | exfalso; apply Hout; simpl; tauto ]).
Qed.

Lemma anthropic_apiBase_terminated (cfg : LLMConfig) :
  Js.endsWith (Anthropic.apiBase (Anthropic.constructor cfg)) "/" = true.
Proof.
  unfold Anthropic.constructor. cbn [Anthropic.apiBase].
  set (b := Js.nullish (apiBase cfg) _).
  destruct (Js.endsWith b "/") eqn:E; [exact E | apply endsWith_append].
Qed.

End CompatibleFacts.

(** C4. For every OpenAI-compatible identifier the factory returns the
    generic OpenAI client, built on the caller's configuration with
    [apiBase] set to the provider's default when [config.apiBase] is absent
    and to [config.apiBase] when it is present. *)
Theorem openAICompatible_default_overridable
  (p d : string) (cfg : Factory.LLMConfig) :
  In (p, d) Factory.openAICompatibleDefaults ->
  Factory.provider cfg = p ->
  exists c,
    Factory.constructLlmApi cfg = Some (Factory.new_OpenAIApi c)
    /\ (Factory.apiBase cfg = None -> Factory.apiBase c = Some d)
    /\ (forall b, Factory.apiBase cfg = Some b -> Factory.apiBase c = Some b)
    /\ Factory.provider c = p
    /\ Factory.apiKey c = Factory.apiKey cfg
    /\ Factory.extras c = Factory.extras cfg.
Proof.
  intros Hin Hp.
  rewrite (openAICompatible_case p d cfg Hin Hp).
  unfold Factory.openAICompatible. eexists. split; [reflexivity|].
  cbn. repeat split; try assumption.
  - intros ->. reflexivity.
  - intros b ->. reflexivity.
Qed.

Lemma openAICompatible_default_overridable_witness :
  exists c,
    Factory.constructLlmApi
      {| Factory.provider := "mistral"; Factory.apiKey := Some "k";
         Factory.apiBase := Some "https://proxy.local/v1/";
         Factory.extras := ∅ |} = Some (Factory.new_OpenAIApi c)
    /\ Factory.apiBase c = Some "https://proxy.local/v1/".
Proof.
  destruct (openAICompatible_default_overridable
              "mistral" "https://api.mistral.ai/v1/"
              {| Factory.provider := "mistral"; Factory.apiKey := Some "k";
                 Factory.apiBase := Some "https://proxy.local/v1/";
                 Factory.extras := ∅ |})
    as (c & Hc & _ & Hb & _).
  - simpl. tauto.
  - reflexivity.
  - exists c. split; [exact Hc | apply Hb; reflexivity].
Defined.

(** C2, as stated, fails: a caller-supplied [apiBase] without the closing
    separator reaches the generic client as it is. *)
Lemma apiBase_override_kept_unterminated :
  let cfg := {| Factory.provider := "xAI"; Factory.apiKey := None;
                Factory.apiBase := Some "http://localhost:8080/v1";
                Factory.extras := ∅ |} in
  exists client b,
    Factory.constructLlmApi cfg = Some client
    /\ Reading.clientApiBase client = Some b
    /\ Js.endsWith b "/" = false.
Proof.
  cbv zeta. eexists. eexists. split; [reflexivity|]. split; reflexivity.
Qed.

(** C2, amended. The Anthropic client's [apiBase] always ends with ["/"].
    The generic OpenAI client is given [config.apiBase] unchanged when the
    caller supplies one, so that it ends with ["/"] exactly when the caller's
    value does; otherwise it is given the provider's default, which ends
    with ["/"] for every OpenAI-compatible provider outside
    [unterminatedDefaults]. *)
Theorem apiBase_separator (cfg : Factory.LLMConfig) :
  (Factory.provider cfg = "anthropic" ->
     exists client b,
       Factory.constructLlmApi cfg = Some client
       /\ Reading.clientApiBase client = Some b
       /\ Js.endsWith b "/" = true)
  /\ (forall d, In (Factory.provider cfg, d) Factory.openAICompatibleDefaults ->
        exists client,
          Factory.constructLlmApi cfg = Some client
          /\ (forall b, Factory.apiBase cfg = Some b ->
                Reading.clientApiBase client = Some b)
          /\ (Factory.apiBase cfg = None ->
                ~ In (Factory.provider cfg) Factory.unterminatedDefaults ->
                Reading.clientApiBase client = Some d
                /\ Js.endsWith d "/" = true)).
Proof.
  split.
  - intros Hp. exists (Factory.new_AnthropicApi cfg). eexists.
    split; [| split; [reflexivity | apply anthropic_apiBase_terminated]].
    unfold Factory.constructLlmApi. rewrite Hp. reflexivity.
  - intros d Hin.
    exists (Factory.openAICompatible d cfg). split.
    + now apply (openAICompatible_case (Factory.provider cfg) d).
    + cbn. split.
      * intros b ->. reflexivity.
      * intros -> Hout. split; [reflexivity|].
        now apply (terminated_default (Factory.provider cfg) d).
Qed.

Lemma apiBase_separator_witness :
  (exists client b,
     Factory.constructLlmApi
       {| Factory.provider := "anthropic"; Factory.apiKey := None;
          Factory.apiBase := Some "https://gateway.local/anthropic";
          Factory.extras := ∅ |} = Some client
     /\ Reading.clientApiBase client = Some b
     /\ Js.endsWith b "/" = true)
  /\ (exists client,
        Factory.constructLlmApi
          {| Factory.provider := "groq"; Factory.apiKey := None;
             Factory.apiBase := None; Factory.extras := ∅ |} = Some client
        /\ Reading.clientApiBase client = Some "https://api.groq.com/openai/v1/").
Proof.
  split.
  - apply (apiBase_separator
             {| Factory.provider := "anthropic"; Factory.apiKey := None;
                Factory.apiBase := Some "https://gateway.local/anthropic";
                Factory.extras := ∅ |}).
    reflexivity.
  - destruct (proj2 (apiBase_separator
                       {| Factory.provider := "groq"; Factory.apiKey := None;
                          Factory.apiBase := None; Factory.extras := ∅ |})
                "https://api.groq.com/openai/v1/")
      as (client & Hc & _ & Hd).
    + simpl. tauto.
    + exists client. split; [exact Hc|].
      apply Hd; [reflexivity|].
      simpl. intros [H|[H|[H|[]]]]; discriminate.
Defined.

(** The three defaults written without the closing separator reach the
    generic client as they are. *)
Example msty_default_unterminated :
  Factory.constructLlmApi
    {| Factory.provider := "msty"; Factory.apiKey := None;
       Factory.apiBase := None; Factory.extras := ∅ |}
  = Some (Factory.new_OpenAIApi
            {| Factory.provider := "msty"; Factory.apiKey := None;
               Factory.apiBase := Some "http://localhost:10000";
               Factory.extras := ∅ |}).
Proof. reflexivity. Qed.

(** ** The Anthropic adapter *)

Section StopFacts.
Import Anthropic.

Lemma convertStop_sent_nonBlank (s : option StopParam) (l : list string) (x : string) :
  convertStop s = Some l -> In x l -> nonBlank x = true.
Proof.
  destruct s as [[y | ys] |]; simpl.
  - destruct (nonBlank y) eqn:E; [| discriminate].
    intros [= <-] [<- | []]. exact E.
  - intros [= <-] Hin. apply filter_In in Hin. tauto.
  - discriminate.
Qed.

Lemma filter_all_blank (l : list string) :
  forallb (fun x => negb (nonBlank x)) l = true ->
  List.filter nonBlank l = [].
Proof.
  induction l as [|x l IH]; simpl; [reflexivity|].
  intros H. apply andb_prop in H as [Hx Hl].
  apply negb_true_iff in Hx. rewrite Hx. now apply IH.
Qed.

End StopFacts.

(** C7, as stated, fails for a list: an array of blank strings is filtered
    to the empty array, which is sent as the [stop_sequences] field. *)
Lemma blank_stop_list_keeps_field :
  let oaiBody := {| Anthropic.model := "claude"; Anthropic.max_tokens := None;
                    Anthropic.top_p := None; Anthropic.temperature := None;
                    Anthropic.stream := None;
                    Anthropic.stop := Some (Anthropic.StopArray [" "]) |} in
  Reading.onlyBlank (Anthropic.StopArray [" "]) = true
  /\ Anthropic.stop_sequences (Anthropic._convertToCleanAnthropicBody oaiBody) = Some []
  /\ Anthropic.hasStopField (Anthropic._convertToCleanAnthropicBody oaiBody) = true.
Proof. cbv zeta. repeat split. Qed.

(** C7, amended. A single blank stop string gives a request without the
    stop-sequence field. A list gives the field holding its non-blank
    entries, the empty list when all are blank. In both forms no blank entry
    is ever sent. *)
Theorem blank_stop_sequences_discarded (oaiBody : Anthropic.ChatCompletionCreateParams) :
  (forall x, Anthropic.stop oaiBody = Some (Anthropic.StopString x) ->
             Reading.onlyBlank (Anthropic.StopString x) = true ->
             Anthropic.hasStopField (Anthropic._convertToCleanAnthropicBody oaiBody) = false)
  /\ (forall l, Anthropic.stop oaiBody = Some (Anthropic.StopArray l) ->
        Anthropic.stop_sequences (Anthropic._convertToCleanAnthropicBody oaiBody)
          = Some (List.filter Anthropic.nonBlank l)
        /\ (Reading.onlyBlank (Anthropic.StopArray l) = true ->
              Anthropic.stop_sequences (Anthropic._convertToCleanAnthropicBody oaiBody)
                = Some []))
  /\ (forall sent x,
        Anthropic.stop_sequences (Anthropic._convertToCleanAnthropicBody oaiBody) = Some sent ->
        In x sent -> Anthropic.nonBlank x = true).
Proof.
  unfold Anthropic.hasStopField, Anthropic._convertToCleanAnthropicBody.
  cbn [Anthropic.stop_sequences]. repeat split.
  - intros x -> Hb. simpl in *. apply negb_true_iff in Hb. now rewrite Hb.
  - rewrite H. reflexivity.
  - rewrite H. simpl. intros Hb. now rewrite filter_all_blank.
  - intros sent x. apply convertStop_sent_nonBlank.
Qed.

Lemma blank_stop_sequences_discarded_witness :
  Anthropic.hasStopField
    (Anthropic._convertToCleanAnthropicBody
       {| Anthropic.model := "claude"; Anthropic.max_tokens := Some 256%Z;
          Anthropic.top_p := None; Anthropic.temperature := None;
          Anthropic.stream := Some true;
          Anthropic.stop := Some (Anthropic.StopString "  ") |}) = false.
Proof.
  apply (blank_stop_sequences_discarded
           {| Anthropic.model := "claude"; Anthropic.max_tokens := Some 256%Z;
              Anthropic.top_p := None; Anthropic.temperature := None;
              Anthropic.stream := Some true;
              Anthropic.stop := Some (Anthropic.StopString "  ") |}) with (x := "  ");
    reflexivity.
Defined.

Section UsageFacts.
Import Anthropic.

Lemma field_insert_other (u : VendorUsage) (k key : string) (v : Z) :
  k <> key -> field (Some (<[k := v]> u)) key = field (Some u) key.
Proof.
  intros Hne. unfold field. cbn. now rewrite lookup_insert_ne.
Qed.

(** The chunks of the loop carry no usage record. *)
Lemma step_yields_no_usage model st value st' c :
  step model st value = inl (st', Some c) -> chunk_usage c = None.
Proof.
  destruct value as [[id name|] | u | u | [text | pj |] | | ty]; simpl;
    try (intros [= <- <-]; reflexivity); try discriminate.
  destruct (negb _ || negb _); [discriminate|].
  intros [= <- <-]. reflexivity.
Qed.

Lemma loop_yields_no_usage model evs : forall st chunks r,
  loop model st evs = (chunks, r) ->
  Forall (fun c => chunk_usage c = None) chunks.
Proof.
  induction evs as [|value rest IH]; intros st chunks r; simpl.
  - intros [= <- <-]. constructor.
  - destruct (step model st value) as [[st' yielded]|message] eqn:Es.
    + destruct (loop model st' rest) as [chunks' r'] eqn:El.
      intros [= <- <-]. specialize (IH _ _ _ El).
      destruct yielded as [c|]; [| exact IH].
      constructor; [| exact IH]. eapply step_yields_no_usage, Es.
    + intros [= <- <-]. constructor.
Qed.

(** A completed run is the chunks of the loop followed by the usage chunk
    built from the final locals. *)
Lemma handleStreamResponse_returned response model chunks :
  handleStreamResponse response model = (chunks, Returned) ->
  exists front st,
    loop model initialState (events response) = (front, inl st)
    /\ failure response = None
    /\ chunks =
         (front ++
            [ usageChatChunk model
                {| completion_tokens := completion_tokens (usage st);
                   prompt_tokens := prompt_tokens (usage st);
                   total_tokens :=
                     (completion_tokens (usage st) + prompt_tokens (usage st))%Z;
                   cached_tokens := cached_tokens (usage st) |} ])%list.
Proof.
  unfold handleStreamResponse.
  destruct (loop model initialState (events response)) as [front [st|message]];
    [| discriminate].
  destruct (failure response); [discriminate|].
  intros [= <-]. now exists front, st.
Qed.

Lemma filter_no_terminal (l : list ChatCompletionChunk) :
  Forall (fun c => chunk_usage c = None) l -> List.filter isTerminal l = [].
Proof.
  induction 1 as [|c l Hc _ IH]; simpl; [reflexivity|].
  unfold isTerminal at 1. now rewrite Hc.
Qed.

End UsageFacts.

(** C5. When the generator returns (neither the event source nor the loop
    throws), the chunks it has yielded contain exactly one terminal chunk,
    which is the last one, carries a usage record and carries neither a
    content delta nor a tool-call delta. *)
Theorem stream_one_terminal_chunk
  (response : Anthropic.SseStream) (model : string)
  (chunks : list Anthropic.ChatCompletionChunk) :
  Anthropic.handleStreamResponse response model = (chunks, Anthropic.Returned) ->
  List.length (List.filter Anthropic.isTerminal chunks) = 1%nat
  /\ exists t,
       last chunks = Some t
       /\ is_Some (Anthropic.chunk_usage t)
       /\ Anthropic.chunk_content t = None
       /\ Anthropic.chunk_tool_calls t = None.
Proof.
  intros H. apply handleStreamResponse_returned in H as (front & st & Hl & _ & ->).
  apply loop_yields_no_usage in Hl. split.
  - rewrite List.filter_app, (filter_no_terminal front Hl). reflexivity.
  - eexists. split; [apply last_snoc|]. cbn. eauto.
Qed.

Lemma stream_one_terminal_chunk_witness :
  List.length
    (List.filter Anthropic.isTerminal
       [ Anthropic.chatChunk "Hi" "claude";
         Anthropic.usageChatChunk "claude"
           {| Anthropic.completion_tokens := 3; Anthropic.prompt_tokens := 10;
              Anthropic.total_tokens := 13; Anthropic.cached_tokens := Some 0%Z |} ])
  = 1%nat.
Proof.
  apply (stream_one_terminal_chunk
           {| Anthropic.events :=
                [ Anthropic.message_start (Some {[ "input_tokens" := 10%Z ]});
                  Anthropic.content_block_start Anthropic.other_block;
                  Anthropic.content_block_delta (Anthropic.text_delta "Hi");
                  Anthropic.content_block_stop;
                  Anthropic.message_delta (Some {[ "output_tokens" := 3%Z ]});
                  Anthropic.other_event "message_stop" ];
              Anthropic.failure := None |}
           "claude").
  vm_compute. reflexivity.
Defined.

(** C6. The usage record of a non-streaming response and the usage record of
    the terminal chunk of a stream both have
    [total_tokens = prompt_tokens + completion_tokens]; a field of the vendor
    record other than the three the adapter reads, a vendor total among
    them, changes nothing in the result. *)
Theorem usage_total_recomputed :
  (forall u,
     Anthropic.total_tokens (Anthropic.usageNonStream u)
     = (Anthropic.prompt_tokens (Anthropic.usageNonStream u)
        + Anthropic.completion_tokens (Anthropic.usageNonStream u))%Z)
  /\ (forall (u : gmap string Z) k v,
        ~ In k Reading.usageKeys ->
        Anthropic.usageNonStream (Some (<[k := v]> u))
        = Anthropic.usageNonStream (Some u))
  /\ (forall model st (u : gmap string Z) k v,
        ~ In k Reading.usageKeys ->
        Anthropic.step model st (Anthropic.message_start (Some (<[k := v]> u)))
        = Anthropic.step model st (Anthropic.message_start (Some u))
        /\ Anthropic.step model st (Anthropic.message_delta (Some (<[k := v]> u)))
           = Anthropic.step model st (Anthropic.message_delta (Some u)))
  /\ (forall response model chunks t,
        Anthropic.handleStreamResponse response model = (chunks, Anthropic.Returned) ->
        last chunks = Some t ->
        exists us,
          Anthropic.chunk_usage t = Some us
          /\ Anthropic.total_tokens us
             = (Anthropic.prompt_tokens us + Anthropic.completion_tokens us)%Z).
Proof.
  split; [| split; [| split]].
  - intros u. cbn. reflexivity.
  - intros u k v Hk. unfold Anthropic.usageNonStream.
    rewrite !field_insert_other; [reflexivity | | |];
      intros ->; apply Hk; simpl; tauto.
  - intros model st u k v Hk. cbn [Anthropic.step].
    rewrite !field_insert_other; [split; reflexivity | | |];
      intros ->; apply Hk; simpl; tauto.
  - intros response model chunks t H Hlast.
    apply handleStreamResponse_returned in H as (front & st & _ & _ & ->).
    rewrite last_snoc in Hlast. injection Hlast as <-.
    eexists. split; [reflexivity|]. cbn. lia.
Qed.

Lemma usage_total_recomputed_witness :
  Anthropic.usageNonStream
    (Some (<[ "total_tokens" := 999%Z ]>
             {[ "input_tokens" := 10%Z; "output_tokens" := 3%Z ]}))
  = Anthropic.usageNonStream
      (Some {[ "input_tokens" := 10%Z; "output_tokens" := 3%Z ]}).
Proof.
  apply (proj1 (proj2 usage_total_recomputed)).
  simpl. intros [H|[H|[H|[]]]]; discriminate.
Defined.

(** The stream of the specification: two chunks, the text ["Hi"] and the
    usage chunk with 10 + 3 = 13 tokens. *)
Example handleStreamResponse_hello :
  Anthropic.handleStreamResponse
    {| Anthropic.events :=
         [ Anthropic.message_start (Some {[ "input_tokens" := 10%Z ]});
           Anthropic.content_block_start Anthropic.other_block;
           Anthropic.content_block_delta (Anthropic.text_delta "Hi");
           Anthropic.content_block_stop;
           Anthropic.message_delta
             (Some {[ "output_tokens" := 3%Z; "total_tokens" := 7%Z ]});
           Anthropic.other_event "message_stop" ];
       Anthropic.failure := None |}
    "claude"
  = ([ Anthropic.chatChunk "Hi" "claude";
       Anthropic.usageChatChunk "claude"
         {| Anthropic.completion_tokens := 3; Anthropic.prompt_tokens := 10;
            Anthropic.total_tokens := 13; Anthropic.cached_tokens := Some 0%Z |} ],
     Anthropic.Returned).
Proof. vm_compute. reflexivity. Qed.

(** A tool-argument fragment outside a tool block stops the generator with an
    error, after the chunks already yielded and without a usage chunk. *)
Example handleStreamResponse_no_tool_use :
  Anthropic.handleStreamResponse
    {| Anthropic.events :=
         [ Anthropic.content_block_delta (Anthropic.text_delta "a");
           Anthropic.content_block_delta (Anthropic.input_json_delta "{") ];
       Anthropic.failure := None |}
    "claude"
  = ([ Anthropic.chatChunk "a" "claude" ], Anthropic.Threw "No tool use found").
Proof. vm_compute. reflexivity. Qed.

(** ** The configuration loader *)

Section LoaderFacts.
Import Json ConfigLoad.

(** The substitution looks at the environment through the listed names
    only. *)
Lemma substituteEnv_agree (replaceAll : string -> string -> string -> string)
  (env1 env2 : gmap string string) (names : list string) :
  (forall k, In k names -> env1 !! k = env2 !! k) ->
  forall content,
    substituteEnv replaceAll env1 content names
    = substituteEnv replaceAll env2 content names.
Proof.
  unfold substituteEnv.
  induction names as [|k names IH]; intros Hagree content; simpl; [reflexivity|].
  unfold envValue at 1 2. rewrite (Hagree k) by (simpl; tauto).
  apply IH. intros k' Hk'. apply Hagree. simpl. tauto.
Qed.

Lemma defaultTelemetry_on (st : LoaderState) :
  cur st !! "allowAnonymousTelemetry" = None ->
  telemetryOn (cur (defaultTelemetry st)).
Proof.
  intros H. unfold defaultTelemetry, telemetryOn. rewrite H. cbn.
  apply lookup_insert_eq.
Qed.

Lemma mergeRemote_on JSONC_parse replaceAll mergeJson getConfigJsonPathForRemote
  (ideSettings : IdeSettings) (w : Ambient) (st : LoaderState) :
  (forall remote,
     Js.truthy (remoteConfigServerUrl ideSettings) = true ->
     resolveSerializedConfig JSONC_parse replaceAll w
       (getConfigJsonPathForRemote
          (Js.nullish (remoteConfigServerUrl ideSettings) EmptyString))
     = Some remote ->
     keepsTelemetryFor mergeJson remote (Some "merge")) ->
  telemetryOn (cur st) ->
  telemetryOn
    (cur (mergeRemote JSONC_parse replaceAll mergeJson getConfigJsonPathForRemote
            ideSettings w st).1).
Proof.
  intros Hkeep Hon. unfold mergeRemote.
  destruct (Js.truthy _) eqn:Eu; [| exact Hon].
  destruct (resolveSerializedConfig _ _ _ _) as [remote|] eqn:Er; [| exact Hon].
  cbn. now apply (Hkeep remote).
Qed.

Lemma mergeWorkspaces_on mergeJson (workspaceConfigs : list Obj) :
  Forall (fun wc => keepsTelemetryFor mergeJson wc (mergeBehavior wc))
    workspaceConfigs ->
  forall st, telemetryOn (cur st) ->
             telemetryOn (cur (mergeWorkspaces mergeJson workspaceConfigs st)).
Proof.
  intros Hkeep. unfold mergeWorkspaces.
  induction Hkeep as [|wc rest Hwc _ IH]; intros st Hon; simpl; [exact Hon|].
  apply IH. cbn. now apply Hwc.
Qed.

(** A merge in which the keys of the second object win keeps an enabled
    field when the second object does not set it. *)
Lemma overlayMerge_keeps_unset (second : Obj) (behavior : option string) :
  second !! "allowAnonymousTelemetry" = None ->
  keepsTelemetryFor Reading.overlayMerge second behavior.
Proof.
  intros Hnone first Hon. unfold Reading.overlayMerge, telemetryOn.
  now rewrite lookup_union_r.
Qed.

Lemma disableIndexingOnLinux_on (w : Ambient) (st : LoaderState) :
  telemetryOn (cur st) -> telemetryOn (cur (disableIndexingOnLinux w st)).
Proof.
  intros Hon. unfold disableIndexingOnLinux.
  destruct (_ && _); [| exact Hon].
  unfold telemetryOn. cbn. now rewrite lookup_insert_ne.
Qed.

End LoaderFacts.




(** C8. When [validateConfig] reports a fatal error, [loadSerializedConfig]
    returns the errors with [config] undefined and [configLoadInterrupted]
    true. Nothing of the later processing happens: the caller's override
    object is left as it was (no telemetry default is written into it), no
    remote configuration is read, and the result does not depend on the
    workspace configurations, the IDE settings or the merge function. *)
Theorem fatal_error_interrupts_load
  (JSONC_parse : string -> option Json.Obj)
  (replaceAll : string -> string -> string -> string)
  (validateConfig : Json.Obj -> option (list ConfigLoad.ConfigValidationError))
  (mergeJson : Json.Obj -> Json.Obj -> option string -> Json.Obj)
  (getConfigJsonPath : string) (getConfigJsonPathForRemote : string -> string)
  (workspaceConfigs : list Json.Obj) (ideSettings : ConfigLoad.IdeSettings)
  (overrideConfigJson : option Json.Obj) (w : ConfigLoad.Ambient)
  (config0 : Json.Obj) :
  ConfigLoad.initialConfig JSONC_parse replaceAll getConfigJsonPath overrideConfigJson w
    = Some config0 ->
  ConfigLoad.someFatal (validateConfig config0) = true ->
  ConfigLoad.loadSerializedConfig JSONC_parse replaceAll validateConfig mergeJson
    getConfigJsonPath getConfigJsonPathForRemote
    workspaceConfigs ideSettings overrideConfigJson w
  = {| ConfigLoad.returned :=
         Some {| ConfigLoad.config := None;
                 ConfigLoad.errors := validateConfig config0;
                 ConfigLoad.configLoadInterrupted := true |};
       ConfigLoad.overrideAfter := overrideConfigJson;
       ConfigLoad.warnedRemote := false |}.
Proof.
  intros Hinit Hfatal. unfold ConfigLoad.loadSerializedConfig.
  rewrite Hinit. cbv zeta. rewrite Hfatal. reflexivity.
Qed.

Lemma fatal_error_interrupts_load_witness :
  ConfigLoad.loadSerializedConfig Json.parse Json.replaceAll
    (fun _ => Some [ {| ConfigLoad.fatal := true; ConfigLoad.message := "Invalid model" |} ])
    Reading.overlayMerge "config.json" (fun url => url)
    [ {[ "allowAnonymousTelemetry" := Json.JBool false ]} ]
    {| ConfigLoad.remoteConfigServerUrl := Some "https://remote.local" |}
    (Some ∅)
    {| ConfigLoad.files := ∅; ConfigLoad.process_env := ∅; ConfigLoad.dotenv := ∅;
       ConfigLoad.platform := "linux"; ConfigLoad.lanceDbCpuSupported := false |}
  = {| ConfigLoad.returned :=
         Some {| ConfigLoad.config := None;
                 ConfigLoad.errors :=
                   Some [ {| ConfigLoad.fatal := true;
                             ConfigLoad.message := "Invalid model" |} ];
                 ConfigLoad.configLoadInterrupted := true |};
       ConfigLoad.overrideAfter := Some ∅;
       ConfigLoad.warnedRemote := false |}.
Proof.
  apply (fatal_error_interrupts_load Json.parse Json.replaceAll
           (fun _ => Some [ {| ConfigLoad.fatal := true;
                               ConfigLoad.message := "Invalid model" |} ])
           Reading.overlayMerge "config.json" (fun url => url)
           [ {[ "allowAnonymousTelemetry" := Json.JBool false ]} ]
           {| ConfigLoad.remoteConfigServerUrl := Some "https://remote.local" |}
           (Some ∅)
           {| ConfigLoad.files := ∅; ConfigLoad.process_env := ∅; ConfigLoad.dotenv := ∅;
              ConfigLoad.platform := "linux"; ConfigLoad.lanceDbCpuSupported := false |}
           ∅);
    reflexivity.
Defined.

(** Without a fatal error the same call does write the default into the
    caller's object. *)
Example load_defaults_telemetry_in_place :
  ConfigLoad.overrideAfter
    (ConfigLoad.loadSerializedConfig Json.parse Json.replaceAll
       (fun _ => None) Reading.overlayMerge "config.json" (fun url => url)
       [] {| ConfigLoad.remoteConfigServerUrl := None |} (Some ∅)
       {| ConfigLoad.files := ∅; ConfigLoad.process_env := ∅; ConfigLoad.dotenv := ∅;
          ConfigLoad.platform := "darwin"; ConfigLoad.lanceDbCpuSupported := true |})
  = Some {[ "allowAnonymousTelemetry" := Json.JBool true ]}.
Proof. vm_compute. reflexivity. Qed.

(** C9, as stated, fails when a later source is merged over the default: the
    default is written before the remote and workspace configurations are
    merged, and the merged object is what is returned. With a merge in which
    the workspace configuration's keys win, a workspace configuration that
    turns telemetry off is obeyed. *)
Lemma telemetry_default_overridden_by_workspace :
  let override : option Json.Obj := Some {[ "models" := Json.JArray [] ]} in
  let w := {| ConfigLoad.files := ∅; ConfigLoad.process_env := ∅;
              ConfigLoad.dotenv := ∅; ConfigLoad.platform := "darwin";
              ConfigLoad.lanceDbCpuSupported := true |} in
  let validateConfig : Json.Obj -> option (list ConfigLoad.ConfigValidationError) :=
    fun _ => None in
  (exists config0,
     ConfigLoad.initialConfig Json.parse Json.replaceAll "config.json" override w
       = Some config0
     /\ config0 !! "allowAnonymousTelemetry" = None
     /\ ConfigLoad.someFatal (validateConfig config0) = false)
  /\ ConfigLoad.returned
       (ConfigLoad.loadSerializedConfig Json.parse Json.replaceAll validateConfig
          Reading.overlayMerge "config.json" (fun url => url)
          [ {[ "allowAnonymousTelemetry" := Json.JBool false ]} ]
          {| ConfigLoad.remoteConfigServerUrl := None |} override w)
     = Some {| ConfigLoad.config :=
                 Some {[ "allowAnonymousTelemetry" := Json.JBool false;
                         "models" := Json.JArray [] ]};
               ConfigLoad.errors := None;
               ConfigLoad.configLoadInterrupted := false |}.
Proof.
  cbv zeta. split.
  - eexists. split; [reflexivity|]. split; reflexivity.
  - vm_compute. reflexivity.
Qed.

(** C9, amended. When [allowAnonymousTelemetry] is left unspecified and no
    fatal error is found, the default [true] is set before the remote and
    workspace configurations are merged; the returned configuration has
    [allowAnonymousTelemetry] true whenever each configuration that is
    merged in this call (the remote one when it is read, every workspace
    one) is merged without turning an enabled field off: always when
    nothing is merged, and, for a merge in which the keys of the second
    object win, when none of the merged configurations sets the field. *)
Theorem telemetry_enabled_by_default
  (JSONC_parse : string -> option Json.Obj)
  (replaceAll : string -> string -> string -> string)
  (validateConfig : Json.Obj -> option (list ConfigLoad.ConfigValidationError))
  (mergeJson : Json.Obj -> Json.Obj -> option string -> Json.Obj)
  (getConfigJsonPath : string) (getConfigJsonPathForRemote : string -> string)
  (workspaceConfigs : list Json.Obj) (ideSettings : ConfigLoad.IdeSettings)
  (overrideConfigJson : option Json.Obj) (w : ConfigLoad.Ambient)
  (config0 : Json.Obj) :
  ConfigLoad.initialConfig JSONC_parse replaceAll getConfigJsonPath overrideConfigJson w
    = Some config0 ->
  config0 !! "allowAnonymousTelemetry" = None ->
  ConfigLoad.someFatal (validateConfig config0) = false ->
  (forall remote,
     Js.truthy (ConfigLoad.remoteConfigServerUrl ideSettings) = true ->
     ConfigLoad.resolveSerializedConfig JSONC_parse replaceAll w
       (getConfigJsonPathForRemote
          (Js.nullish (ConfigLoad.remoteConfigServerUrl ideSettings) EmptyString))
     = Some remote ->
     ConfigLoad.keepsTelemetryFor mergeJson remote (Some "merge")) ->
  Forall (fun wc =>
            ConfigLoad.keepsTelemetryFor mergeJson wc (ConfigLoad.mergeBehavior wc))
    workspaceConfigs ->
  exists cfg,
    ConfigLoad.returned
      (ConfigLoad.loadSerializedConfig JSONC_parse replaceAll validateConfig mergeJson
         getConfigJsonPath getConfigJsonPathForRemote
         workspaceConfigs ideSettings overrideConfigJson w)
    = Some {| ConfigLoad.config := Some cfg;
              ConfigLoad.errors := validateConfig config0;
              ConfigLoad.configLoadInterrupted := false |}
    /\ cfg !! "allowAnonymousTelemetry" = Some (Json.JBool true).
Proof.
  intros Hinit Hundef Hok Hremote Hws. unfold ConfigLoad.loadSerializedConfig.
  rewrite Hinit. cbv zeta. rewrite Hok.
  set (st0 := {| ConfigLoad.cur := config0; ConfigLoad.caller := overrideConfigJson;
                 ConfigLoad.shared := bool_decide (is_Some overrideConfigJson) |}).
  pose proof (defaultTelemetry_on st0 Hundef) as H1.
  pose proof (mergeRemote_on JSONC_parse replaceAll mergeJson
                getConfigJsonPathForRemote ideSettings w _ Hremote H1) as H2.
  destruct (ConfigLoad.mergeRemote _ _ _ _ _ _ _) as [st2 warned].
  cbn [fst] in H2.
  pose proof (mergeWorkspaces_on mergeJson workspaceConfigs Hws st2 H2) as H3.
  pose proof (disableIndexingOnLinux_on w _ H3) as H4.
  eexists. split; [reflexivity | exact H4].
Qed.

Lemma telemetry_enabled_by_default_witness :
  exists cfg,
    ConfigLoad.returned
      (ConfigLoad.loadSerializedConfig Json.parse Json.replaceAll
         (fun _ => None) Reading.overlayMerge
         "config.json" (fun url => url)
         [ {[ "disableIndexing" := Json.JBool false ]} ]
         {| ConfigLoad.remoteConfigServerUrl := None |}
         (Some {[ "models" := Json.JArray [] ]})
         {| ConfigLoad.files := ∅; ConfigLoad.process_env := ∅;
            ConfigLoad.dotenv := ∅; ConfigLoad.platform := "linux";
            ConfigLoad.lanceDbCpuSupported := false |})
    = Some {| ConfigLoad.config := Some cfg;
              ConfigLoad.errors := None;
              ConfigLoad.configLoadInterrupted := false |}
    /\ cfg !! "allowAnonymousTelemetry" = Some (Json.JBool true).
Proof.
  apply (telemetry_enabled_by_default Json.parse Json.replaceAll
           (fun _ => None) Reading.overlayMerge
           "config.json" (fun url => url)
           [ {[ "disableIndexing" := Json.JBool false ]} ]
           {| ConfigLoad.remoteConfigServerUrl := None |}
           (Some {[ "models" := Json.JArray [] ]})
           {| ConfigLoad.files := ∅; ConfigLoad.process_env := ∅;
              ConfigLoad.dotenv := ∅; ConfigLoad.platform := "linux";
              ConfigLoad.lanceDbCpuSupported := false |}
           {[ "models" := Json.JArray [] ]}).
  - reflexivity.
  - reflexivity.
  - reflexivity.
  - intros remote Hurl. discriminate Hurl.
  - repeat constructor. apply overlayMerge_keeps_unset. reflexivity.
Defined.

(** ** The model lists *)

Section ModelFacts.
Import ConfigLoad.

Lemma filter_out_then_in {A} (p : A -> bool) (l : list A) :
  List.filter p (List.filter (fun x => negb (p x)) l) = [].
Proof.
  induction l as [|x l IH]; simpl; [reflexivity|].
  destruct (p x) eqn:E; simpl; [exact IH | now rewrite E].
Qed.

(** The test of line 350 reads the array the filter of line 349 has just
    made, so its branch is never taken. *)
Lemma dropFreeTrial_eq (models : list BaseLLM) :
  dropFreeTrial models
  = (List.filter (fun model => negb (isFreeTrial model)) models, false).
Proof.
  unfold dropFreeTrial. now rewrite filter_out_then_in.
Qed.

Lemma isFreeTrial_false (m : BaseLLM) :
  isFreeTrial m = false <-> providerName m <> "free-trial".
Proof. unfold isFreeTrial. apply String.eqb_neq. Qed.

End ModelFacts.

(** C10. The chat model list of the final configuration holds no model whose
    provider name is ["free-trial"]; and since the test of line 350 reads the
    filtered array, the chat-models branch never raises
    [warnAboutFreeTrial], whatever the models are. *)
Theorem free_trial_chat_models_dropped (i : ConfigLoad.Intermediate) :
  Forall (fun m => ConfigLoad.providerName m <> "free-trial")
    (ConfigLoad.chat (ConfigLoad.intermediateToFinalConfig i))
  /\ ConfigLoad.warnAfterChat (ConfigLoad.intermediateToFinalConfig i) = false
  /\ (forall models, (ConfigLoad.dropFreeTrial models).2 = false).
Proof.
  unfold ConfigLoad.intermediateToFinalConfig.
  rewrite dropFreeTrial_eq.
  destruct (ConfigLoad.tabAutocomplete _ _) as [tab warn1]. cbn.
  split; [| split; [reflexivity |]].
  - apply List.Forall_forall. intros m Hm.
    apply List.filter_In in Hm as [_ Hm].
    apply isFreeTrial_false. now apply negb_true_iff.
  - intros models. now rewrite dropFreeTrial_eq.
Qed.

(** A free-trial chat model is dropped without any warning, while a
    free-trial autocomplete model raises the flag. *)
Example free_trial_chat_model_silent :
  let trial := {| ConfigLoad.providerName := "free-trial";
                  ConfigLoad.title := Some "GPT-4o (trial)";
                  ConfigLoad.requestOptions := ∅;
                  ConfigLoad.roles := None |} in
  ConfigLoad.freeTrialErrors
    (ConfigLoad.intermediateToFinalConfig
       {| ConfigLoad.builtModels := [trial];
          ConfigLoad.configRequestOptions := ∅;
          ConfigLoad.autocompleteEntries := [];
          ConfigLoad.embeddingsProvider := None;
          ConfigLoad.reranker := None |}) = []
  /\ ConfigLoad.warnAboutFreeTrial
       (ConfigLoad.intermediateToFinalConfig
          {| ConfigLoad.builtModels := [];
             ConfigLoad.configRequestOptions := ∅;
             ConfigLoad.autocompleteEntries := [ConfigLoad.FromDescription (Some trial)];
             ConfigLoad.embeddingsProvider := None;
             ConfigLoad.reranker := None |}) = true.
Proof. cbv zeta. split; reflexivity. Qed.

(** * More properties of the sources *)

(** ** index.ts *)

(** X1. Whatever client the factory builds, it builds it on the caller's
    configuration: apart from [MockApi], which takes none, the constructor
    receives the caller's provider, API key and other fields unchanged, and
    a caller-supplied [apiBase] is never replaced. *)
Theorem constructLlmApi_keeps_config
  (cfg : Factory.LLMConfig) (client : Factory.BaseLlmApi) :
  Factory.constructLlmApi cfg = Some client ->
  client = Factory.new_MockApi
  \/ exists c,
       Clients.clientConfig client = Some c
       /\ Factory.provider c = Factory.provider cfg
       /\ Factory.apiKey c = Factory.apiKey cfg
       /\ Factory.extras c = Factory.extras cfg
       /\ (forall b, Factory.apiBase cfg = Some b -> Factory.apiBase c = Some b).
Proof.
  destruct cfg as [p k b e].
  unfold Factory.constructLlmApi, Factory.openAICompatible. cbn.
  repeat match goal with
         | |- context [String.eqb p ?s] => destruct (String.eqb p s); cbn [orb]
         | |- Some _ = Some _ -> _ =>
             intros [= <-];
             first [ left; reflexivity
                   | right; eexists; cbn; repeat split; intros ? ->; reflexivity ]
         end.
  discriminate.
Qed.

Lemma constructLlmApi_keeps_config_witness :
  exists c,
    Clients.clientConfig
      (Factory.new_OpenAIApi
         {| Factory.provider := "ollama"; Factory.apiKey := Some "k";
            Factory.apiBase := Some "http://localhost:11434/v1/";
            Factory.extras := {[ "engine" := "e" ]} |}) = Some c
    /\ Factory.apiKey c = Some "k".
Proof.
  destruct (constructLlmApi_keeps_config
              {| Factory.provider := "ollama"; Factory.apiKey := Some "k";
                 Factory.apiBase := None; Factory.extras := {[ "engine" := "e" ]} |}
              (Factory.new_OpenAIApi
                 {| Factory.provider := "ollama"; Factory.apiKey := Some "k";
                    Factory.apiBase := Some "http://localhost:11434/v1/";
                    Factory.extras := {[ "engine" := "e" ]} |})
              eq_refl)
    as [H | (c & Hc & _ & Hk & _)].
  - discriminate H.
  - exists c. split; [exact Hc | exact Hk].
Defined.

(** X2. A provider with a bespoke client class gets the caller's
    configuration object itself: no default [apiBase] is filled in for it. *)
Theorem dedicated_client_config_untouched (cfg : Factory.LLMConfig) :
  In (Factory.provider cfg) Factory.dedicatedProviders ->
  Factory.provider cfg <> "mock" ->
  Factory.constructLlmApi cfg ≫= Clients.clientConfig = Some cfg.
Proof.
  destruct cfg as [p k b e]. cbn [Factory.provider].
  unfold Factory.dedicatedProviders. intros Hin Hmock.
  repeat (destruct Hin as [<- | Hin]; [ first [ reflexivity | now destruct Hmock ] | ]).
  destruct Hin.
Qed.

Lemma dedicated_client_config_untouched_witness :
  Factory.constructLlmApi
    {| Factory.provider := "gemini"; Factory.apiKey := Some "k";
       Factory.apiBase := None; Factory.extras := ∅ |} ≫= Clients.clientConfig
  = Some {| Factory.provider := "gemini"; Factory.apiKey := Some "k";
            Factory.apiBase := None; Factory.extras := ∅ |}.
Proof.
  apply (dedicated_client_config_untouched
           {| Factory.provider := "gemini"; Factory.apiKey := Some "k";
              Factory.apiBase := None; Factory.extras := ∅ |}).
  - simpl. tauto.
  - cbn. intros H. apply String.eqb_eq in H. vm_compute in H. discriminate.
Defined.

(** ** Anthropic.ts: the constructor *)

(** X3. The normalisation of [apiBase] by the Anthropic constructor is
    idempotent: building a client on the [apiBase] of a built client gives
    the same [apiBase]. A value that already ends with ["/"] is kept as it
    is, any other value gets exactly one ["/"] appended. *)
Theorem anthropic_apiBase_idempotent (cfg : Factory.LLMConfig) :
  Anthropic.apiBase
    (Anthropic.constructor
       (Clients.withApiBase
          (Some (Anthropic.apiBase (Anthropic.constructor cfg))) cfg))
  = Anthropic.apiBase (Anthropic.constructor cfg)
  /\ (forall b, Factory.apiBase cfg = Some b ->
        Anthropic.apiBase (Anthropic.constructor cfg)
        = if Js.endsWith b "/" then b else b ++ "/").
Proof.
  split.
  - pose proof (anthropic_apiBase_terminated cfg) as H.
    unfold Anthropic.constructor at 1. cbn in *. now rewrite H.
  - intros b Hb. unfold Anthropic.constructor. cbn. now rewrite Hb.
Qed.

Lemma anthropic_apiBase_idempotent_witness :
  Anthropic.apiBase
    (Anthropic.constructor
       {| Factory.provider := "anthropic"; Factory.apiKey := None;
          Factory.apiBase := Some "https://gateway.local/v1";
          Factory.extras := ∅ |})
  = "https://gateway.local/v1/".
Proof.
  apply (proj2 (anthropic_apiBase_idempotent
                  {| Factory.provider := "anthropic"; Factory.apiKey := None;
                     Factory.apiBase := Some "https://gateway.local/v1";
                     Factory.extras := ∅ |})
           "https://gateway.local/v1").
  reflexivity.
Defined.

(** ** Anthropic.ts: the conversion of the messages *)

Section MessageFacts.
Import AnthropicMessages.

Lemma blankText_nonBlank (t : string) :
  blankText (Some t) = negb (Anthropic.nonBlank t).
Proof. unfold blankText, Anthropic.nonBlank. cbn. now rewrite negb_involutive. Qed.

Lemma convertPart_texts (parts : list ContentPart) :
  blockTexts (omap convertPart parts)
  = List.filter Anthropic.nonBlank (partTexts parts).
Proof.
  unfold blockTexts, partTexts.
  induction parts as [|[[t|]|url|] parts IH]; [reflexivity | | cbn; exact IH ..].
  cbn -[blankText Anthropic.nonBlank]. rewrite blankText_nonBlank.
  destruct (Anthropic.nonBlank t); cbn -[blankText Anthropic.nonBlank];
    [now rewrite IH | exact IH].
Qed.

Lemma omap_length_le {A B} (f : A -> option B) (l : list A) :
  (List.length (omap f l) <= List.length l)%nat.
Proof.
  induction l as [|x l IH]; cbn; [lia|]. destruct (f x); cbn; lia.
Qed.






Lemma find_skip (pre : list Message) (s : Message) (post : list Message) :
  Forall (fun m => isSystem m = false) pre ->
  isSystem s = true ->
  List.find isSystem (pre ++ s :: post) = Some s.
Proof.
  intros Hpre Hs. induction Hpre as [|m pre Hm _ IH]; cbn.
  - now rewrite Hs.
  - now rewrite Hm.
Qed.

End MessageFacts.



(** X5. A message with an array content that is neither a tool result nor
    an assistant message with tool calls is converted part by part. When
    one of its parts is neither a text part nor a part with an [image_url],
    the conversion throws. Otherwise the message keeps all its other fields;
    the texts of its text blocks are the non-blank texts of its text parts,
    in their order, and no block is added. *)
Theorem array_content_drops_blank_text
  (safeParseArgs : option string -> string -> Json.Json)
  (m : AnthropicMessages.Message) (parts : list AnthropicMessages.ContentPart) :
  AnthropicMessages.role m <> "tool" ->
  (AnthropicMessages.role m = "assistant" -> AnthropicMessages.tool_calls m = None) ->
  AnthropicMessages.content m = AnthropicMessages.ContentParts parts ->
  (existsb AnthropicMessages.partThrows parts = true ->
     AnthropicMessages.convertMessage safeParseArgs m = None)
  /\ (existsb AnthropicMessages.partThrows parts = false ->
        exists blocks,
          AnthropicMessages.convertMessage safeParseArgs m
          = Some (AnthropicMessages.with_content m blocks)
          /\ AnthropicMessages.blockTexts blocks
             = List.filter Anthropic.nonBlank (AnthropicMessages.partTexts parts)
          /\ (List.length blocks <= List.length parts)%nat).
Proof.
  intros Htool Hassist Hc. unfold AnthropicMessages.convertMessage.
  apply String.eqb_neq in Htool. rewrite Htool, Hc.
  assert (Hcalls : (if String.eqb (AnthropicMessages.role m) "assistant"
                    then AnthropicMessages.tool_calls m else None) = None).
  { destruct (String.eqb (AnthropicMessages.role m) "assistant") eqn:Ea;
      [| reflexivity].
    apply String.eqb_eq in Ea. now apply Hassist. }
  rewrite Hcalls. split; intros Hthrow; rewrite Hthrow; [reflexivity|].
  exists (omap AnthropicMessages.convertPart parts). split; [reflexivity|]. split.
  - apply convertPart_texts.
  - apply omap_length_le.
Qed.

Lemma array_content_drops_blank_text_witness :
  exists blocks,
    AnthropicMessages.convertMessage (fun _ _ => Json.JNull)
      {| AnthropicMessages.role := "user";
         AnthropicMessages.content :=
           AnthropicMessages.ContentParts
             [ AnthropicMessages.TextPart (Some "  ");
               AnthropicMessages.TextPart (Some "Hello");
               AnthropicMessages.TextPart None ];
         AnthropicMessages.tool_call_id := None;
         AnthropicMessages.tool_calls := None |}
    = Some (AnthropicMessages.with_content
              {| AnthropicMessages.role := "user";
                 AnthropicMessages.content :=
                   AnthropicMessages.ContentParts
                     [ AnthropicMessages.TextPart (Some "  ");
                       AnthropicMessages.TextPart (Some "Hello");
                       AnthropicMessages.TextPart None ];
                 AnthropicMessages.tool_call_id := None;
                 AnthropicMessages.tool_calls := None |} blocks)
    /\ AnthropicMessages.blockTexts blocks = ["Hello"].
Proof.
  destruct (array_content_drops_blank_text (fun _ _ => Json.JNull)
              {| AnthropicMessages.role := "user";
                 AnthropicMessages.content :=
                   AnthropicMessages.ContentParts
                     [ AnthropicMessages.TextPart (Some "  ");
                       AnthropicMessages.TextPart (Some "Hello");
                       AnthropicMessages.TextPart None ];
                 AnthropicMessages.tool_call_id := None;
                 AnthropicMessages.tool_calls := None |}
              [ AnthropicMessages.TextPart (Some "  ");
                AnthropicMessages.TextPart (Some "Hello");
                AnthropicMessages.TextPart None ])
    as [_ Hok].
  - cbn. intros H. apply String.eqb_eq in H. vm_compute in H. discriminate.
  - cbn. reflexivity.
  - reflexivity.
  - destruct (Hok eq_refl) as (blocks & H1 & H2 & _).
    exists blocks. split; [exact H1 | exact H2].
Defined.

(** A user message with an audio part cannot be converted. *)
Example audio_part_throws :
  AnthropicMessages.convertMessage (fun _ _ => Json.JNull)
    {| AnthropicMessages.role := "user";
       AnthropicMessages.content :=
         AnthropicMessages.ContentParts
           [ AnthropicMessages.TextPart (Some "Listen");
             AnthropicMessages.OtherPart ];
       AnthropicMessages.tool_call_id := None;
       AnthropicMessages.tool_calls := None |}
  = None.
Proof. reflexivity. Qed.



(** X7. Only the first system message counts: its content is the system
    content of the request, and system messages that come later change
    neither the system field nor the message list. *)
Theorem only_first_system_message_used
  (safeParseArgs : option string -> string -> Json.Json)
  (pre : list AnthropicMessages.Message) (s : AnthropicMessages.Message)
  (post post' : list AnthropicMessages.Message) :
  Forall (fun m => AnthropicMessages.isSystem m = false) pre ->
  AnthropicMessages.isSystem s = true ->
  List.filter (fun m => negb (AnthropicMessages.isSystem m)) post
  = List.filter (fun m => negb (AnthropicMessages.isSystem m)) post' ->
  AnthropicMessages.systemMessage (pre ++ s :: post) = AnthropicMessages.content s
  /\ AnthropicMessages.systemField (pre ++ s :: post)
     = AnthropicMessages.systemField (pre ++ s :: post')
  /\ AnthropicMessages.bodyMessages safeParseArgs (pre ++ s :: post)
     = AnthropicMessages.bodyMessages safeParseArgs (pre ++ s :: post').
Proof.
  intros Hpre Hs Hpost.
  unfold AnthropicMessages.systemField, AnthropicMessages.systemMessage,
    AnthropicMessages.bodyMessages.
  rewrite !(find_skip pre s _ Hpre Hs).
  split; [reflexivity|]. split; [reflexivity|].
  rewrite !List.filter_app. cbn. rewrite Hs. cbn. now rewrite Hpost.
Qed.

Lemma only_first_system_message_used_witness :
  AnthropicMessages.systemMessage
    [ {| AnthropicMessages.role := "user";
         AnthropicMessages.content := AnthropicMessages.ContentString "Hello";
         AnthropicMessages.tool_call_id := None;
         AnthropicMessages.tool_calls := None |};
      {| AnthropicMessages.role := "system";
         AnthropicMessages.content := AnthropicMessages.ContentString "First";
         AnthropicMessages.tool_call_id := None;
         AnthropicMessages.tool_calls := None |};
      {| AnthropicMessages.role := "system";
         AnthropicMessages.content := AnthropicMessages.ContentString "Second";
         AnthropicMessages.tool_call_id := None;
         AnthropicMessages.tool_calls := None |} ]
  = AnthropicMessages.ContentString "First".
Proof.
  apply (only_first_system_message_used (fun _ _ => Json.JNull)
           [ {| AnthropicMessages.role := "user";
                AnthropicMessages.content := AnthropicMessages.ContentString "Hello";
                AnthropicMessages.tool_call_id := None;
                AnthropicMessages.tool_calls := None |} ]
           {| AnthropicMessages.role := "system";
              AnthropicMessages.content := AnthropicMessages.ContentString "First";
              AnthropicMessages.tool_call_id := None;
              AnthropicMessages.tool_calls := None |}
           [ {| AnthropicMessages.role := "system";
                AnthropicMessages.content := AnthropicMessages.ContentString "Second";
                AnthropicMessages.tool_call_id := None;
                AnthropicMessages.tool_calls := None |} ]
           []).
  - repeat constructor.
  - reflexivity.
  - reflexivity.
Defined.

(** X8. The conversion of a message list fails exactly when one of the
    messages is a tool result without content, or is converted part by part
    and has a part that is neither a text part nor a part with an
    [image_url]; it then fails as a whole. Every other list is converted. *)
Theorem convertMessages_fails_on_empty_tool_result
  (safeParseArgs : option string -> string -> Json.Json)
  (msgs : list AnthropicMessages.Message) :
  match AnthropicMessages._convertMessages safeParseArgs msgs with
  | Some _ => false
  | None => true
  end
  = existsb AnthropicMessages.unconvertible msgs.
Proof.
  unfold AnthropicMessages._convertMessages.
  induction msgs as [|m msgs IH]; [reflexivity|].
  cbn [mapM existsb]. unfold mbind, option_bind, mret, option_ret.
  assert (Hm : match AnthropicMessages.convertMessage safeParseArgs m with
               | Some _ => false | None => true end
               = AnthropicMessages.unconvertible m).
  { unfold AnthropicMessages.convertMessage, AnthropicMessages.unconvertible,
      AnthropicMessages.convertedByParts.
    destruct (String.eqb (AnthropicMessages.role m) "tool");
      destruct (String.eqb (AnthropicMessages.role m) "assistant");
      destruct (AnthropicMessages.tool_calls m);
      destruct (AnthropicMessages.content m) as [s|parts|];
      try reflexivity;
      destruct (existsb AnthropicMessages.partThrows parts); reflexivity. }
  rewrite <- Hm, <- IH.
  destruct (AnthropicMessages.convertMessage safeParseArgs m); [| reflexivity].
  destruct (mapM _ msgs); reflexivity.
Qed.



(** ** Anthropic.ts: the stream decoder *)

Section StreamFacts.
Import Anthropic StreamReading.

(** The loop over two stretches of events is the loop over the first, then,
    unless it threw, the loop over the second from where the first ended. *)
Lemma loop_app model (evs1 : list SseEvent) : forall st evs2,
  loop model st (evs1 ++ evs2)%list
  = match loop model st evs1 with
    | (c1, inl st1) =>
        let '(c2, r) := loop model st1 evs2 in ((c1 ++ c2)%list, r)
    | (c1, inr message) => (c1, inr message)
    end.
Proof.
  induction evs1 as [|value rest IH]; intros st evs2; cbn [app loop].
  - now destruct (loop model st evs2).
  - destruct (step model st value) as [[st' yielded]|message]; [| reflexivity].
    rewrite IH.
    destruct (loop model st' rest) as [c1 [st1|message]]; [| reflexivity].
    destruct (loop model st1 evs2) as [c2 r].
    now destruct yielded.
Qed.

(** An event without a branch of its own leaves the locals alone and yields
    nothing. *)
Lemma step_insignificant model st (value : SseEvent) :
  significant value = false -> step model st value = inl (st, None).
Proof.
  destruct value as [[id name|] | u | u | [text | pj |] | | ty];
    simpl; try discriminate; reflexivity.
Qed.

Lemma loop_significant model (evs : list SseEvent) : forall st,
  loop model st (List.filter significant evs) = loop model st evs.
Proof.
  induction evs as [|value rest IH]; intros st; [reflexivity|].
  cbn [List.filter]. destruct (significant value) eqn:E.
  - cbn [loop]. destruct (step model st value) as [[st' yielded]|message];
      [now rewrite IH | reflexivity].
  - cbn [loop]. rewrite (step_insignificant model st value E), IH.
    now destruct (loop model st rest).
Qed.

(** What the chunks of the loop carry when the loop reaches the end of the
    events. *)
Lemma loop_contents model (evs : list SseEvent) : forall st chunks st',
  loop model st evs = (chunks, inl st') ->
  omap chunk_content chunks = textDeltas evs
  /\ chunkFragments chunks = jsonFragments evs.
Proof.
  unfold textDeltas, jsonFragments, chunkFragments.
  induction evs as [|value rest IH]; intros st chunks st'; cbn [loop].
  - intros [= <- <-]. split; reflexivity.
  - destruct (step model st value) as [[st1 yielded]|message] eqn:Es;
      [| discriminate].
    destruct (loop model st1 rest) as [chunks' r] eqn:El.
    intros [= <- ->]. destruct (IH _ _ _ El) as [IHt IHf].
    destruct value as [[id name|] | u | u | [text | pj |] | | ty];
      simpl in Es;
      try (injection Es as <- <-; cbn; split; [exact IHt | exact IHf]).
    + injection Es as <- <-. cbn. split; [now rewrite IHt | exact IHf].
    + destruct (negb _ || negb _); [discriminate|].
      injection Es as <- <-. cbn. split; [exact IHt | now rewrite IHf].
Qed.

(** The usage counters at the end of the loop come from the last event of
    their kind, or are the initial ones. *)
Lemma loop_usage model (evs : list SseEvent) : forall st chunks st',
  loop model st evs = (chunks, inl st') ->
  prompt_tokens (usage st')
  = match lastMessageStart evs with
    | Some u => field u "input_tokens"
    | None => prompt_tokens (usage st)
    end
  /\ cached_tokens (usage st')
     = match lastMessageStart evs with
       | Some u => Some (field u "cache_read_input_tokens")
       | None => cached_tokens (usage st)
       end
  /\ completion_tokens (usage st')
     = match lastMessageDelta evs with
       | Some u => field u "output_tokens"
       | None => completion_tokens (usage st)
       end.
Proof.
  unfold lastMessageStart, lastMessageDelta.
  induction evs as [|value rest IH]; intros st chunks st'; cbn [loop].
  - intros [= <- <-]. repeat split.
  - destruct (step model st value) as [[st1 yielded]|message] eqn:Es;
      [| discriminate].
    destruct (loop model st1 rest) as [chunks' r] eqn:El.
    intros [= <- ->]. destruct (IH _ _ _ El) as (IHp & IHc & IHo).
    rewrite IHp, IHc, IHo. clear IHp IHc IHo IH El.
    destruct value as [[id name|] | u | u | [text | pj |] | | ty];
      simpl in Es;
      try (injection Es as <- <-; cbn; repeat split; reflexivity).
    + injection Es as <- <-. cbn [omap list_omap]. rewrite last_cons. cbn.
      repeat split; now destruct (last _).
    + injection Es as <- <-. cbn [omap list_omap]. rewrite last_cons. cbn.
      repeat split; now destruct (last _).
    + destruct (negb _ || negb _); [discriminate|].
      injection Es as <- <-. cbn. repeat split; reflexivity.
Qed.

End StreamFacts.

(** X10. When the generator returns, nothing of the stream is lost or
    reordered: the text deltas of the chunks are the texts of the text
    events, and the argument fragments of the tool-call chunks are the
    fragments of the JSON events, both in the order of arrival. *)
Theorem stream_forwards_every_delta
  (response : Anthropic.SseStream) (model : string)
  (chunks : list Anthropic.ChatCompletionChunk) :
  Anthropic.handleStreamResponse response model = (chunks, Anthropic.Returned) ->
  omap Anthropic.chunk_content chunks
  = StreamReading.textDeltas (Anthropic.events response)
  /\ StreamReading.chunkFragments chunks
     = StreamReading.jsonFragments (Anthropic.events response).
Proof.
  intros H. apply handleStreamResponse_returned in H as (front & st & Hl & _ & ->).
  apply loop_contents in Hl as [Ht Hf]. split.
  - rewrite omap_app, Ht. cbn. apply app_nil_r.
  - unfold StreamReading.chunkFragments in *.
    rewrite map_app, concat_app, Hf. cbn. apply app_nil_r.
Qed.

Lemma stream_forwards_every_delta_witness :
  omap Anthropic.chunk_content
    [ Anthropic.chatChunk "Hel" "claude"; Anthropic.chatChunk "lo" "claude";
      Anthropic.usageChatChunk "claude"
        {| Anthropic.completion_tokens := 0; Anthropic.prompt_tokens := 0;
           Anthropic.total_tokens := 0; Anthropic.cached_tokens := None |} ]
  = [ "Hel"; "lo" ].
Proof.
  apply (stream_forwards_every_delta
           {| Anthropic.events :=
                [ Anthropic.content_block_delta (Anthropic.text_delta "Hel");
                  Anthropic.other_event "ping";
                  Anthropic.content_block_delta (Anthropic.text_delta "lo") ];
              Anthropic.failure := None |}
           "claude").
  vm_compute. reflexivity.
Defined.

(** X11. Events the decoder has no branch for (unknown event types, block
    starts that are not tool uses, deltas that are neither text nor JSON)
    have no effect at all: taking them out of a stream changes neither the
    chunks nor the way the run ends. *)
Theorem unknown_events_are_ignored
  (evs : list Anthropic.SseEvent) (failure : option string) (model : string) :
  Anthropic.handleStreamResponse
    {| Anthropic.events := List.filter StreamReading.significant evs;
       Anthropic.failure := failure |} model
  = Anthropic.handleStreamResponse
      {| Anthropic.events := evs; Anthropic.failure := failure |} model.
Proof.
  unfold Anthropic.handleStreamResponse. cbn [Anthropic.events Anthropic.failure].
  now rewrite loop_significant.
Qed.

(** X12. A run that ends with an error reports no usage: none of the chunks
    yielded before the error is a terminal chunk. *)
Theorem failed_stream_has_no_usage_chunk
  (response : Anthropic.SseStream) (model message : string)
  (chunks : list Anthropic.ChatCompletionChunk) :
  Anthropic.handleStreamResponse response model = (chunks, Anthropic.Threw message) ->
  Forall (fun c => Anthropic.isTerminal c = false) chunks.
Proof.
  unfold Anthropic.handleStreamResponse.
  destruct (Anthropic.loop model Anthropic.initialState (Anthropic.events response))
    as [front r] eqn:El.
  apply loop_yields_no_usage in El.
  assert (Hfront : Forall (fun c => Anthropic.isTerminal c = false) front).
  { eapply List.Forall_impl; [| exact El].
    intros c Hc. unfold Anthropic.isTerminal. now rewrite Hc. }
  destruct r as [st|msg]; [destruct (Anthropic.failure response) |];
    intros [= <-]; try exact Hfront.
Qed.

Lemma failed_stream_has_no_usage_chunk_witness :
  Forall (fun c => Anthropic.isTerminal c = false)
    [ Anthropic.chatChunk "a" "claude" ].
Proof.
  apply (failed_stream_has_no_usage_chunk
           {| Anthropic.events :=
                [ Anthropic.message_start (Some {[ "input_tokens" := 5%Z ]});
                  Anthropic.content_block_delta (Anthropic.text_delta "a") ];
              Anthropic.failure := Some "socket hang up" |}
           "claude" "socket hang up").
  vm_compute. reflexivity.
Defined.

(** X13. An argument fragment that arrives while no tool block is open (at
    the start of the stream, after a [content_block_stop], or in a block
    opened without an id or a name) ends the run with the error ["No tool
    use found"]: the chunks yielded before it are all there is, the later
    events are not looked at, and no usage chunk follows. *)
Theorem orphan_fragment_stops_stream
  (model : string) (pre rest : list Anthropic.SseEvent) (partial_json : string)
  (failure : option string)
  (chunks : list Anthropic.ChatCompletionChunk) (st : Anthropic.DecodeState) :
  Anthropic.loop model Anthropic.initialState pre = (chunks, inl st) ->
  StreamReading.toolOpen st = false ->
  Anthropic.handleStreamResponse
    {| Anthropic.events :=
         (pre ++ Anthropic.content_block_delta (Anthropic.input_json_delta partial_json)
              :: rest)%list;
       Anthropic.failure := failure |} model
  = (chunks, Anthropic.Threw "No tool use found").
Proof.
  intros Hl Hopen. unfold Anthropic.handleStreamResponse.
  cbn [Anthropic.events Anthropic.failure].
  rewrite loop_app, Hl. cbn [Anthropic.loop Anthropic.step].
  unfold StreamReading.toolOpen in Hopen.
  rewrite <- negb_andb, Hopen. cbn. now rewrite app_nil_r.
Qed.

Lemma orphan_fragment_stops_stream_witness :
  Anthropic.handleStreamResponse
    {| Anthropic.events :=
         [ Anthropic.content_block_start
             (Anthropic.tool_use (Some "toolu_1") (Some "read_file"));
           Anthropic.content_block_delta (Anthropic.input_json_delta "{");
           Anthropic.content_block_stop;
           Anthropic.content_block_delta (Anthropic.input_json_delta "}");
           Anthropic.message_delta None ];
       Anthropic.failure := None |} "claude"
  = ([ Anthropic.chatChunkFromDelta "claude"
         [ {| Anthropic.tc_id := "toolu_1"; Anthropic.tc_index := 0;
              Anthropic.tc_name := "read_file"; Anthropic.tc_arguments := "{" |} ] ],
     Anthropic.Threw "No tool use found").
Proof.
  apply (orphan_fragment_stops_stream "claude"
           [ Anthropic.content_block_start
               (Anthropic.tool_use (Some "toolu_1") (Some "read_file"));
             Anthropic.content_block_delta (Anthropic.input_json_delta "{");
             Anthropic.content_block_stop ]
           [ Anthropic.message_delta None ] "}" None
           _ {| Anthropic.lastToolUseId := None; Anthropic.lastToolUseName := None;
                Anthropic.usage := Anthropic.usage Anthropic.initialState |}).
  - vm_compute. reflexivity.
  - reflexivity.
Defined.

(** X14. Inside a tool block every argument fragment is forwarded at once,
    as one chunk holding one tool-call delta with the id and the name of the
    block and the index 0, and the block stays open. *)
Theorem tool_block_forwards_fragments
  (model : string) (st : Anthropic.DecodeState) (id name : string)
  (fragments : list string) :
  id <> EmptyString -> name <> EmptyString ->
  Anthropic.loop model st
    (Anthropic.content_block_start (Anthropic.tool_use (Some id) (Some name))
       :: map (fun pj => Anthropic.content_block_delta (Anthropic.input_json_delta pj))
            fragments)
  = (map (fun pj =>
            Anthropic.chatChunkFromDelta model
              [ {| Anthropic.tc_id := id; Anthropic.tc_index := 0;
                   Anthropic.tc_name := name; Anthropic.tc_arguments := pj |} ])
       fragments,
     inl {| Anthropic.lastToolUseId := Some id;
            Anthropic.lastToolUseName := Some name;
            Anthropic.usage := Anthropic.usage st |}).
Proof.
  intros Hid Hname. apply String.eqb_neq in Hid, Hname.
  cbn [Anthropic.loop Anthropic.step].
  set (st1 := {| Anthropic.lastToolUseId := Some id;
                 Anthropic.lastToolUseName := Some name;
                 Anthropic.usage := Anthropic.usage st |}).
  assert (H : Anthropic.loop model st1
                (map (fun pj => Anthropic.content_block_delta
                                  (Anthropic.input_json_delta pj)) fragments)
              = (map (fun pj =>
                        Anthropic.chatChunkFromDelta model
                          [ {| Anthropic.tc_id := id; Anthropic.tc_index := 0;
                               Anthropic.tc_name := name;
                               Anthropic.tc_arguments := pj |} ]) fragments,
                 inl st1)).
  { induction fragments as [|pj fragments IH]; [reflexivity|].
    cbn [map Anthropic.loop Anthropic.step]. unfold st1 at 1 2. cbn [Js.truthy
      Anthropic.lastToolUseId Anthropic.lastToolUseName].
    rewrite Hid, Hname. cbn [negb orb]. rewrite IH. reflexivity. }
  now rewrite H.
Qed.

Lemma tool_block_forwards_fragments_witness :
  Anthropic.loop "claude" Anthropic.initialState
    [ Anthropic.content_block_start
        (Anthropic.tool_use (Some "toolu_1") (Some "read_file"));
      Anthropic.content_block_delta (Anthropic.input_json_delta "{");
      Anthropic.content_block_delta (Anthropic.input_json_delta "}") ]
  = ([ Anthropic.chatChunkFromDelta "claude"
         [ {| Anthropic.tc_id := "toolu_1"; Anthropic.tc_index := 0;
              Anthropic.tc_name := "read_file"; Anthropic.tc_arguments := "{" |} ];
       Anthropic.chatChunkFromDelta "claude"
         [ {| Anthropic.tc_id := "toolu_1"; Anthropic.tc_index := 0;
              Anthropic.tc_name := "read_file"; Anthropic.tc_arguments := "}" |} ] ],
     inl {| Anthropic.lastToolUseId := Some "toolu_1";
            Anthropic.lastToolUseName := Some "read_file";
            Anthropic.usage := Anthropic.usage Anthropic.initialState |}).
Proof.
  apply (tool_block_forwards_fragments "claude" Anthropic.initialState
           "toolu_1" "read_file" [ "{"; "}" ]).
  - intros H. apply String.eqb_eq in H. vm_compute in H. discriminate.
  - intros H. apply String.eqb_eq in H. vm_compute in H. discriminate.
Defined.

(** X15. The usage of the terminal chunk is read from the last event of each
    kind: the prompt and cached tokens from the last [message_start], the
    completion tokens from the last [message_delta]. Without a
    [message_start] the prompt count is 0 and no cached count is reported;
    without a [message_delta] the completion count is 0. *)
Theorem terminal_usage_from_last_events
  (response : Anthropic.SseStream) (model : string)
  (chunks : list Anthropic.ChatCompletionChunk) (t : Anthropic.ChatCompletionChunk) :
  Anthropic.handleStreamResponse response model = (chunks, Anthropic.Returned) ->
  last chunks = Some t ->
  exists us,
    Anthropic.chunk_usage t = Some us
    /\ Anthropic.prompt_tokens us
       = match StreamReading.lastMessageStart (Anthropic.events response) with
         | Some u => Anthropic.field u "input_tokens"
         | None => 0%Z
         end
    /\ Anthropic.cached_tokens us
       = match StreamReading.lastMessageStart (Anthropic.events response) with
         | Some u => Some (Anthropic.field u "cache_read_input_tokens")
         | None => None
         end
    /\ Anthropic.completion_tokens us
       = match StreamReading.lastMessageDelta (Anthropic.events response) with
         | Some u => Anthropic.field u "output_tokens"
         | None => 0%Z
         end.
Proof.
  intros H Hlast.
  apply handleStreamResponse_returned in H as (front & st & Hl & _ & ->).
  rewrite last_snoc in Hlast. injection Hlast as <-.
  apply loop_usage in Hl as (Hp & Hc & Ho).
  eexists. split; [reflexivity|]. cbn. repeat split; assumption.
Qed.

Lemma terminal_usage_from_last_events_witness :
  exists us,
    Anthropic.chunk_usage
      (Anthropic.usageChatChunk "claude"
         {| Anthropic.completion_tokens := 7; Anthropic.prompt_tokens := 10;
            Anthropic.total_tokens := 17; Anthropic.cached_tokens := Some 0%Z |})
    = Some us
    /\ Anthropic.completion_tokens us = 7%Z.
Proof.
  destruct (terminal_usage_from_last_events
              {| Anthropic.events :=
                   [ Anthropic.message_start (Some {[ "input_tokens" := 10%Z ]});
                     Anthropic.message_delta (Some {[ "output_tokens" := 3%Z ]});
                     Anthropic.message_delta (Some {[ "output_tokens" := 7%Z ]}) ];
                 Anthropic.failure := None |}
              "claude"
              [ Anthropic.usageChatChunk "claude"
                  {| Anthropic.completion_tokens := 7; Anthropic.prompt_tokens := 10;
                     Anthropic.total_tokens := 17;
                     Anthropic.cached_tokens := Some 0%Z |} ]
              (Anthropic.usageChatChunk "claude"
                 {| Anthropic.completion_tokens := 7; Anthropic.prompt_tokens := 10;
                    Anthropic.total_tokens := 17;
                    Anthropic.cached_tokens := Some 0%Z |}))
    as (us & Hu & _ & _ & Ho).
  - vm_compute. reflexivity.
  - reflexivity.
  - exists us. split; [exact Hu|]. rewrite Ho. vm_compute. reflexivity.
Defined.

(** ** load.ts: merge keys, shell escaping, model lists *)

Section LoadTsFacts.
Import ConfigLoad LoadTs.

Lemma sameString_eq (a b : option string) : sameString a b = true <-> a = b.
Proof.
  destruct a as [x|], b as [y|]; cbn; try (split; congruence).
  rewrite String.eqb_eq. split; congruence.
Qed.

(** Two entries have the same context-provider key when their names are the
    same and, for two [http] providers, their URLs are the same. *)
Lemma contextProviders_key_true (a b : Entry) :
  contextProviders_key a b = true
  <-> entry_name a = entry_name b
      /\ (entry_name a = Some "http" -> entry_url a = entry_url b).
Proof.
  unfold contextProviders_key.
  destruct (sameString (entry_name a) (Some "http")) eqn:Ea;
    destruct (sameString (entry_name b) (Some "http")) eqn:Eb; cbn [negb orb].
  - rewrite andb_true_iff, !sameString_eq. apply sameString_eq in Ea. tauto.
  - rewrite sameString_eq. apply sameString_eq in Ea.
    split; [| tauto]. intros H. rewrite <- H, Ea in Eb. discriminate.
  - rewrite sameString_eq. split; [| tauto]. intros H. split; [exact H|].
    intros Hh. apply sameString_eq in Hh. congruence.
  - rewrite sameString_eq. split; [| tauto]. intros H. split; [exact H|].
    intros Hh. apply sameString_eq in Hh. congruence.
Qed.

Lemma spacesGuarded_escape (p : string) : forall escaped,
  spacesGuarded escaped (escapeSpacesInPath p) = true.
Proof.
  induction p as [|c p IH]; intros escaped; [reflexivity|].
  cbn [escapeSpacesInPath]. destruct (Ascii.eqb c " "%char) eqn:E.
  - cbn. apply IH.
  - cbn [spacesGuarded]. now rewrite E, IH.
Qed.


Lemma describedModels_eq (entries : list AutocompleteEntry) : forall warn,
  describedModels entries warn
  = (keptDescribed entries, warn || existsb trialEntry entries).
Proof.
  unfold keptDescribed.
  induction entries as [|[[llm|]|llm] entries IH]; intros warn;
    cbn [describedModels omap list_omap existsb trialEntry].
  - now rewrite orb_false_r.
  - destruct (isFreeTrial llm); rewrite IH; cbn.
    + now rewrite orb_true_r.
    + reflexivity.
  - apply IH.
  - apply IH.
Qed.

Lemma tabAutocomplete_eq (entries : list AutocompleteEntry) (warn : bool) :
  tabAutocomplete entries warn
  = ((customModels entries ++ keptDescribed entries)%list,
     warn || existsb trialEntry entries).
Proof. unfold tabAutocomplete. now rewrite describedModels_eq. Qed.

Lemma warnFromRef_eq (ref : option ProviderRef) (warn : bool) :
  warnFromRef ref warn = warn || describedTrial ref.
Proof.
  destruct ref as [[|name]|]; cbn; try now rewrite orb_false_r.
  destruct (String.eqb name "free-trial"); [now rewrite orb_true_r | now rewrite orb_false_r].
Qed.

End LoadTsFacts.

(** X16. The key by which context providers are matched when configurations
    are merged is an equivalence: every entry matches itself, matching is
    symmetric and transitive. Two [http] providers match exactly when their
    URLs are the same, so that several of them can live side by side. *)
Theorem contextProviders_key_equivalence :
  (forall a, LoadTs.contextProviders_key a a = true)
  /\ (forall a b, LoadTs.contextProviders_key a b = LoadTs.contextProviders_key b a)
  /\ (forall a b c,
        LoadTs.contextProviders_key a b = true ->
        LoadTs.contextProviders_key b c = true ->
        LoadTs.contextProviders_key a c = true)
  /\ (forall a b,
        LoadTs.entry_name a = Some "http" ->
        LoadTs.entry_name b = Some "http" ->
        LoadTs.contextProviders_key a b
        = LoadTs.sameString (LoadTs.entry_url a) (LoadTs.entry_url b)).
Proof.
  split; [| split; [| split]].
  - intros a. apply contextProviders_key_true. tauto.
  - intros a b. apply Bool.eq_true_iff_eq.
    rewrite !contextProviders_key_true. split; intros [Hn Hu]; split;
      try congruence; intros Hh; symmetry; apply Hu; congruence.
  - intros a b c Hab Hbc. apply contextProviders_key_true in Hab as [H1 H2].
    apply contextProviders_key_true in Hbc as [H3 H4].
    apply contextProviders_key_true. split; [congruence|].
    intros Hh. rewrite (H2 Hh). apply H4. congruence.
  - intros a b Ha Hb. unfold LoadTs.contextProviders_key.
    rewrite Ha, Hb. reflexivity.
Qed.

Lemma contextProviders_key_equivalence_witness :
  LoadTs.contextProviders_key
    {| LoadTs.entry_title := None; LoadTs.entry_name := Some "http";
       LoadTs.entry_url := Some "https://a.local/context" |}
    {| LoadTs.entry_title := None; LoadTs.entry_name := Some "http";
       LoadTs.entry_url := Some "https://b.local/context" |}
  = false.
Proof.
  rewrite (proj2 (proj2 (proj2 contextProviders_key_equivalence))
             {| LoadTs.entry_title := None; LoadTs.entry_name := Some "http";
                LoadTs.entry_url := Some "https://a.local/context" |}
             {| LoadTs.entry_title := None; LoadTs.entry_name := Some "http";
                LoadTs.entry_url := Some "https://b.local/context" |}
             eq_refl eq_refl).
  vm_compute. reflexivity.
Defined.

(** X17. [escapeSpacesInPath] puts one backslash before every space and
    changes nothing else: the result is longer by the number of spaces, has
    the same number of spaces, each of them right after a backslash, and a
    path without spaces is returned as it is. Since the spaces stay, the
    escaping is not idempotent: each further pass adds a backslash for each
    space. *)
Theorem escapeSpacesInPath_effect (p : string) :
  String.length (LoadTs.escapeSpacesInPath p)
  = (String.length p + LoadTs.spaces p)%nat
  /\ LoadTs.spaces (LoadTs.escapeSpacesInPath p) = LoadTs.spaces p
  /\ LoadTs.spacesGuarded false (LoadTs.escapeSpacesInPath p) = true
  /\ (LoadTs.spaces p = 0%nat -> LoadTs.escapeSpacesInPath p = p)
  /\ String.length (LoadTs.escapeSpacesInPath (LoadTs.escapeSpacesInPath p))
     = (String.length p + 2 * LoadTs.spaces p)%nat.
Proof.
  assert (Hlen : forall q, String.length (LoadTs.escapeSpacesInPath q)
                           = (String.length q + LoadTs.spaces q)%nat).
  { induction q as [|c q IH]; [reflexivity|].
    cbn [LoadTs.escapeSpacesInPath LoadTs.spaces].
    destruct (Ascii.eqb c " "%char); cbn [String.length]; rewrite IH; lia. }
  assert (Hsp : forall q, LoadTs.spaces (LoadTs.escapeSpacesInPath q)
                          = LoadTs.spaces q).
  { induction q as [|c q IH]; [reflexivity|].
    cbn [LoadTs.escapeSpacesInPath LoadTs.spaces].
    destruct (Ascii.eqb c " "%char) eqn:E; cbn [LoadTs.spaces].
    - rewrite IH. reflexivity.
    - now rewrite E, IH. }
  split; [apply Hlen|]. split; [apply Hsp|].
  split; [apply spacesGuarded_escape|]. split.
  - induction p as [|c p IH]; [reflexivity|].
    cbn [LoadTs.escapeSpacesInPath LoadTs.spaces].
    destruct (Ascii.eqb c " "%char); [discriminate|].
    cbn. intros H. now rewrite IH.
  - rewrite Hlen, Hsp, Hlen. lia.
Qed.

Lemma escapeSpacesInPath_effect_witness :
  LoadTs.escapeSpacesInPath "/usr/local/bin/esbuild" = "/usr/local/bin/esbuild".
Proof.
  apply (proj1 (proj2 (proj2 (proj2
           (escapeSpacesInPath_effect "/usr/local/bin/esbuild"))))).
  reflexivity.
Defined.

(** The path of a user directory with a space, escaped once and twice. *)
Example escapeSpacesInPath_twice :
  LoadTs.spaces "/Users/Ada Lovelace/.continue/config.ts" = 1%nat
  /\ String.length (LoadTs.escapeSpacesInPath "/Users/Ada Lovelace/.continue/config.ts")
     = 40%nat
  /\ String.length
       (LoadTs.escapeSpacesInPath
          (LoadTs.escapeSpacesInPath "/Users/Ada Lovelace/.continue/config.ts"))
     = 41%nat.
Proof. repeat split. Qed.

(** X18. Applying the request options of the configuration to the models is
    idempotent, and it leaves the provider names and titles of the models,
    their number and their order as they are. *)
Theorem applyRequestOptionsToModels_idempotent
  (models : list ConfigLoad.BaseLLM) (configRequestOptions : gmap string string)
  (roles : option (list string)) :
  ConfigLoad.applyRequestOptionsToModels
    (ConfigLoad.applyRequestOptionsToModels models configRequestOptions roles)
    configRequestOptions roles
  = ConfigLoad.applyRequestOptionsToModels models configRequestOptions roles
  /\ map ConfigLoad.providerName
       (ConfigLoad.applyRequestOptionsToModels models configRequestOptions roles)
     = map ConfigLoad.providerName models
  /\ map ConfigLoad.title
       (ConfigLoad.applyRequestOptionsToModels models configRequestOptions roles)
     = map ConfigLoad.title models.
Proof.
  unfold ConfigLoad.applyRequestOptionsToModels. rewrite !List.map_map.
  split; [| split]; [| apply List.map_ext; reflexivity ..].
  apply List.map_ext. intros m. cbn. f_equal.
  - now rewrite (assoc_L (∪)), (idemp_L (∪)).
  - destruct roles as [r|]; [| reflexivity]. now destruct (ConfigLoad.roles m).
Qed.


(** X20. The autocomplete models are the custom models first, in their
    order and whatever their provider, followed by the described models that
    could be built and are not free-trial ones, in the order in which their
    construction ends. The free-trial warning is raised exactly when a
    described autocomplete model, the embeddings provider or the reranker
    is a free-trial one; the chat models play no part in it. *)
Theorem autocomplete_models_and_warning (i : ConfigLoad.Intermediate) :
  (exists described,
     ConfigLoad.autocomplete (ConfigLoad.intermediateToFinalConfig i)
     = ConfigLoad.applyRequestOptionsToModels
         (ConfigLoad.customModels (ConfigLoad.autocompleteEntries i) ++ described)%list
         (ConfigLoad.configRequestOptions i) None
     /\ described ≡ₚ LoadTs.keptDescribed (ConfigLoad.autocompleteEntries i))
  /\ ConfigLoad.warnAboutFreeTrial (ConfigLoad.intermediateToFinalConfig i)
     = existsb LoadTs.trialEntry (ConfigLoad.autocompleteEntries i)
       || LoadTs.describedTrial (ConfigLoad.embeddingsProvider i)
       || LoadTs.describedTrial (ConfigLoad.reranker i).
Proof.
  unfold ConfigLoad.intermediateToFinalConfig.
  rewrite dropFreeTrial_eq, tabAutocomplete_eq. cbn.
  split; [| now rewrite !warnFromRef_eq].
  exists (LoadTs.keptDescribed (ConfigLoad.autocompleteEntries i)).
  split; reflexivity.
Qed.

(** A custom model listed between two described ones comes first. *)
Example autocomplete_custom_first :
  let model name := {| ConfigLoad.providerName := "ollama";
                       ConfigLoad.title := Some name;
                       ConfigLoad.requestOptions := ∅;
                       ConfigLoad.roles := None |} in
  map ConfigLoad.title
    (ConfigLoad.autocomplete
       (ConfigLoad.intermediateToFinalConfig
          {| ConfigLoad.builtModels := [];
             ConfigLoad.configRequestOptions := ∅;
             ConfigLoad.autocompleteEntries :=
               [ ConfigLoad.FromDescription (Some (model "Coder"));
                 ConfigLoad.Custom (model "Mine");
                 ConfigLoad.FromDescription (Some (model "Coder2")) ];
             ConfigLoad.embeddingsProvider := None;
             ConfigLoad.reranker := None |}))
  = [ Some "Mine"; Some "Coder"; Some "Coder2" ].
Proof. cbv zeta. reflexivity. Qed.

(** ** load.ts: the loader *)

Section LoaderMoreFacts.
Import Json ConfigLoad.

(** Without a remote configuration and without workspace configurations the
    loader only writes its two defaults. *)
Lemma load_without_merges JSONC_parse replaceAll validateConfig mergeJson
  getConfigJsonPath getConfigJsonPathForRemote
  (ideSettings : IdeSettings) (overrideConfigJson : option Obj) (w : Ambient)
  (config0 : Obj) :
  initialConfig JSONC_parse replaceAll getConfigJsonPath overrideConfigJson w
    = Some config0 ->
  someFatal (validateConfig config0) = false ->
  Js.truthy (remoteConfigServerUrl ideSettings) = false ->
  loadSerializedConfig JSONC_parse replaceAll validateConfig mergeJson
    getConfigJsonPath getConfigJsonPathForRemote [] ideSettings overrideConfigJson w
  = let st :=
      disableIndexingOnLinux w
        (defaultTelemetry
           {| cur := config0; caller := overrideConfigJson;
              shared := bool_decide (is_Some overrideConfigJson) |}) in
    {| returned := Some {| config := Some (cur st);
                           errors := validateConfig config0;
                           configLoadInterrupted := false |};
       overrideAfter := caller st;
       warnedRemote := false |}.
Proof.
  intros Hinit Hok Hurl. unfold loadSerializedConfig, mergeRemote.
  rewrite Hinit. cbv zeta. rewrite Hok, Hurl. reflexivity.
Qed.

(** While [config] is the caller's object, the caller sees what the loader
    writes. *)
Lemma shared_caller_is_cur (w : Ambient) (c : Obj) :
  let st := disableIndexingOnLinux w
              (defaultTelemetry {| cur := c; caller := Some c; shared := true |}) in
  caller st = Some (cur st).
Proof.
  unfold disableIndexingOnLinux, defaultTelemetry, assign. cbn.
  destruct (c !! "allowAnonymousTelemetry"); destruct (_ && _); reflexivity.
Qed.

Lemma merged_lookup_dotenv (w1 w2 : Ambient) (k : string) :
  dotenv w1 = dotenv w2 ->
  (dotenv w1 !! k = None -> process_env w1 !! k = process_env w2 !! k) ->
  mergedEnv w1 !! k = mergedEnv w2 !! k.
Proof.
  intros Hd Hp. unfold mergedEnv. rewrite <- Hd.
  destruct (dotenv w1 !! k) as [v|] eqn:E.
  - now rewrite !(lookup_union_Some_l _ _ _ _ E).
  - rewrite !lookup_union_r by exact E. now apply Hp.
Qed.


End LoaderMoreFacts.

(** X22. With an override and no remote configuration server, the loader
    reads neither the file system nor the environment: its outcome depends
    on the ambient state only through the platform and the CPU check. *)
Theorem load_with_override_reads_no_file
  (JSONC_parse : string -> option Json.Obj)
  (replaceAll : string -> string -> string -> string)
  (validateConfig : Json.Obj -> option (list ConfigLoad.ConfigValidationError))
  (mergeJson : Json.Obj -> Json.Obj -> option string -> Json.Obj)
  (getConfigJsonPath : string) (getConfigJsonPathForRemote : string -> string)
  (workspaceConfigs : list Json.Obj) (ideSettings : ConfigLoad.IdeSettings)
  (c : Json.Obj) (w1 w2 : ConfigLoad.Ambient) :
  Js.truthy (ConfigLoad.remoteConfigServerUrl ideSettings) = false ->
  ConfigLoad.platform w1 = ConfigLoad.platform w2 ->
  ConfigLoad.lanceDbCpuSupported w1 = ConfigLoad.lanceDbCpuSupported w2 ->
  ConfigLoad.loadSerializedConfig JSONC_parse replaceAll validateConfig mergeJson
    getConfigJsonPath getConfigJsonPathForRemote
    workspaceConfigs ideSettings (Some c) w1
  = ConfigLoad.loadSerializedConfig JSONC_parse replaceAll validateConfig mergeJson
      getConfigJsonPath getConfigJsonPathForRemote
      workspaceConfigs ideSettings (Some c) w2.
Proof.
  intros Hurl Hp Hl.
  unfold ConfigLoad.loadSerializedConfig, ConfigLoad.mergeRemote,
    ConfigLoad.disableIndexingOnLinux.
  cbn [ConfigLoad.initialConfig]. now rewrite Hurl, Hp, Hl.
Qed.

Lemma load_with_override_reads_no_file_witness :
  ConfigLoad.loadSerializedConfig Json.parse Json.replaceAll
    (fun _ => None) Reading.overlayMerge "config.json" (fun url => url)
    [] {| ConfigLoad.remoteConfigServerUrl := None |} (Some ∅)
    {| ConfigLoad.files := {[ "config.json" := "{}" ]};
       ConfigLoad.process_env := {[ "API_KEY" := "sk-one" ]}; ConfigLoad.dotenv := ∅;
       ConfigLoad.platform := "darwin"; ConfigLoad.lanceDbCpuSupported := true |}
  = ConfigLoad.loadSerializedConfig Json.parse Json.replaceAll
      (fun _ => None) Reading.overlayMerge "config.json" (fun url => url)
      [] {| ConfigLoad.remoteConfigServerUrl := None |} (Some ∅)
      {| ConfigLoad.files := ∅;
         ConfigLoad.process_env := ∅; ConfigLoad.dotenv := ∅;
         ConfigLoad.platform := "darwin"; ConfigLoad.lanceDbCpuSupported := true |}.
Proof.
  apply load_with_override_reads_no_file; reflexivity.
Defined.

(** X23. A remote configuration that cannot be read or parsed is not an
    error: the loader warns and goes on exactly as if no remote server were
    configured. *)
Theorem unreadable_remote_config_is_skipped
  (JSONC_parse : string -> option Json.Obj)
  (replaceAll : string -> string -> string -> string)
  (validateConfig : Json.Obj -> option (list ConfigLoad.ConfigValidationError))
  (mergeJson : Json.Obj -> Json.Obj -> option string -> Json.Obj)
  (getConfigJsonPath : string) (getConfigJsonPathForRemote : string -> string)
  (workspaceConfigs : list Json.Obj) (url : string)
  (overrideConfigJson : option Json.Obj) (w : ConfigLoad.Ambient)
  (config0 : Json.Obj) :
  ConfigLoad.initialConfig JSONC_parse replaceAll getConfigJsonPath overrideConfigJson w
    = Some config0 ->
  ConfigLoad.someFatal (validateConfig config0) = false ->
  url <> EmptyString ->
  ConfigLoad.resolveSerializedConfig JSONC_parse replaceAll w
    (getConfigJsonPathForRemote url) = None ->
  let withRemote :=
    ConfigLoad.loadSerializedConfig JSONC_parse replaceAll validateConfig mergeJson
      getConfigJsonPath getConfigJsonPathForRemote workspaceConfigs
      {| ConfigLoad.remoteConfigServerUrl := Some url |} overrideConfigJson w in
  let withoutRemote :=
    ConfigLoad.loadSerializedConfig JSONC_parse replaceAll validateConfig mergeJson
      getConfigJsonPath getConfigJsonPathForRemote workspaceConfigs
      {| ConfigLoad.remoteConfigServerUrl := None |} overrideConfigJson w in
  ConfigLoad.returned withRemote = ConfigLoad.returned withoutRemote
  /\ ConfigLoad.overrideAfter withRemote = ConfigLoad.overrideAfter withoutRemote
  /\ ConfigLoad.warnedRemote withRemote = true
  /\ ConfigLoad.warnedRemote withoutRemote = false.
Proof.
  intros Hinit Hok Hurl Hremote. cbv zeta.
  unfold ConfigLoad.loadSerializedConfig, ConfigLoad.mergeRemote.
  rewrite Hinit. cbv zeta. rewrite Hok.
  cbn [ConfigLoad.remoteConfigServerUrl Js.truthy Js.nullish].
  apply String.eqb_neq in Hurl. rewrite Hurl, Hremote. cbn.
  repeat split.
Qed.

Lemma unreadable_remote_config_is_skipped_witness :
  ConfigLoad.warnedRemote
    (ConfigLoad.loadSerializedConfig Json.parse Json.replaceAll
       (fun _ => None) Reading.overlayMerge "config.json" (fun url => url)
       [] {| ConfigLoad.remoteConfigServerUrl := Some "remote.json" |} (Some ∅)
       {| ConfigLoad.files := ∅; ConfigLoad.process_env := ∅; ConfigLoad.dotenv := ∅;
          ConfigLoad.platform := "darwin"; ConfigLoad.lanceDbCpuSupported := true |})
  = true.
Proof.
  apply (unreadable_remote_config_is_skipped Json.parse Json.replaceAll
           (fun _ => None) Reading.overlayMerge "config.json" (fun url => url)
           [] "remote.json" (Some ∅)
           {| ConfigLoad.files := ∅; ConfigLoad.process_env := ∅;
              ConfigLoad.dotenv := ∅; ConfigLoad.platform := "darwin";
              ConfigLoad.lanceDbCpuSupported := true |}
           ∅).
  - reflexivity.
  - reflexivity.
  - intros H. apply String.eqb_eq in H. vm_compute in H. discriminate.
  - reflexivity.
Defined.

(** X24. On Linux with a CPU that the vector database does not support, the
    configuration the loader returns always has [disableIndexing] set to
    true, whatever the configuration file, the remote configuration and the
    workspace configurations say and however they are merged. *)
Theorem indexing_disabled_on_unsupported_linux
  (JSONC_parse : string -> option Json.Obj)
  (replaceAll : string -> string -> string -> string)
  (validateConfig : Json.Obj -> option (list ConfigLoad.ConfigValidationError))
  (mergeJson : Json.Obj -> Json.Obj -> option string -> Json.Obj)
  (getConfigJsonPath : string) (getConfigJsonPathForRemote : string -> string)
  (workspaceConfigs : list Json.Obj) (ideSettings : ConfigLoad.IdeSettings)
  (overrideConfigJson : option Json.Obj) (w : ConfigLoad.Ambient)
  (config0 : Json.Obj) :
  ConfigLoad.initialConfig JSONC_parse replaceAll getConfigJsonPath overrideConfigJson w
    = Some config0 ->
  ConfigLoad.someFatal (validateConfig config0) = false ->
  ConfigLoad.platform w = "linux" ->
  ConfigLoad.lanceDbCpuSupported w = false ->
  exists cfg,
    ConfigLoad.returned
      (ConfigLoad.loadSerializedConfig JSONC_parse replaceAll validateConfig mergeJson
         getConfigJsonPath getConfigJsonPathForRemote
         workspaceConfigs ideSettings overrideConfigJson w)
    = Some {| ConfigLoad.config := Some cfg;
              ConfigLoad.errors := validateConfig config0;
              ConfigLoad.configLoadInterrupted := false |}
    /\ cfg !! "disableIndexing" = Some (Json.JBool true).
Proof.
  intros Hinit Hok Hp Hl. unfold ConfigLoad.loadSerializedConfig.
  rewrite Hinit. cbv zeta. rewrite Hok.
  destruct (ConfigLoad.mergeRemote _ _ _ _ _ _ _) as [st2 warned].
  eexists. split; [reflexivity|].
  unfold ConfigLoad.disableIndexingOnLinux. rewrite Hp, Hl. cbn.
  apply lookup_insert_eq.
Qed.

Lemma indexing_disabled_on_unsupported_linux_witness :
  exists cfg,
    ConfigLoad.returned
      (ConfigLoad.loadSerializedConfig Json.parse Json.replaceAll
         (fun _ => None) Reading.overlayMerge "config.json" (fun url => url)
         [ {[ "disableIndexing" := Json.JBool false ]} ]
         {| ConfigLoad.remoteConfigServerUrl := None |}
         (Some {[ "disableIndexing" := Json.JBool false ]})
         {| ConfigLoad.files := ∅; ConfigLoad.process_env := ∅;
            ConfigLoad.dotenv := ∅; ConfigLoad.platform := "linux";
            ConfigLoad.lanceDbCpuSupported := false |})
    = Some {| ConfigLoad.config := Some cfg;
              ConfigLoad.errors := None;
              ConfigLoad.configLoadInterrupted := false |}
    /\ cfg !! "disableIndexing" = Some (Json.JBool true).
Proof.
  apply (indexing_disabled_on_unsupported_linux Json.parse Json.replaceAll
           (fun _ => None) Reading.overlayMerge "config.json" (fun url => url)
           [ {[ "disableIndexing" := Json.JBool false ]} ]
           {| ConfigLoad.remoteConfigServerUrl := None |}
           (Some {[ "disableIndexing" := Json.JBool false ]})
           {| ConfigLoad.files := ∅; ConfigLoad.process_env := ∅;
              ConfigLoad.dotenv := ∅; ConfigLoad.platform := "linux";
              ConfigLoad.lanceDbCpuSupported := false |}
           {[ "disableIndexing" := Json.JBool false ]});
    reflexivity.
Defined.

(** X25. A configuration that says anything about [allowAnonymousTelemetry],
    [false] and [null] included, keeps what it says: when nothing is merged,
    the returned configuration has the same value. *)
Theorem explicit_telemetry_choice_kept
  (JSONC_parse : string -> option Json.Obj)
  (replaceAll : string -> string -> string -> string)
  (validateConfig : Json.Obj -> option (list ConfigLoad.ConfigValidationError))
  (mergeJson : Json.Obj -> Json.Obj -> option string -> Json.Obj)
  (getConfigJsonPath : string) (getConfigJsonPathForRemote : string -> string)
  (ideSettings : ConfigLoad.IdeSettings)
  (overrideConfigJson : option Json.Obj) (w : ConfigLoad.Ambient)
  (config0 : Json.Obj) (choice : Json.Json) :
  ConfigLoad.initialConfig JSONC_parse replaceAll getConfigJsonPath overrideConfigJson w
    = Some config0 ->
  ConfigLoad.someFatal (validateConfig config0) = false ->
  Js.truthy (ConfigLoad.remoteConfigServerUrl ideSettings) = false ->
  config0 !! "allowAnonymousTelemetry" = Some choice ->
  exists cfg,
    ConfigLoad.returned
      (ConfigLoad.loadSerializedConfig JSONC_parse replaceAll validateConfig mergeJson
         getConfigJsonPath getConfigJsonPathForRemote
         [] ideSettings overrideConfigJson w)
    = Some {| ConfigLoad.config := Some cfg;
              ConfigLoad.errors := validateConfig config0;
              ConfigLoad.configLoadInterrupted := false |}
    /\ cfg !! "allowAnonymousTelemetry" = Some choice.
Proof.
  intros Hinit Hok Hurl Hchoice.
  rewrite (load_without_merges _ _ _ _ _ _ _ _ _ _ Hinit Hok Hurl). cbv zeta.
  eexists. split; [reflexivity|].
  unfold ConfigLoad.defaultTelemetry. cbn [ConfigLoad.cur]. rewrite Hchoice.
  unfold ConfigLoad.disableIndexingOnLinux.
  destruct (_ && _); cbn; [now rewrite lookup_insert_ne | exact Hchoice].
Qed.

Lemma explicit_telemetry_choice_kept_witness :
  exists cfg,
    ConfigLoad.returned
      (ConfigLoad.loadSerializedConfig Json.parse Json.replaceAll
         (fun _ => None) Reading.overlayMerge "config.json" (fun url => url)
         [] {| ConfigLoad.remoteConfigServerUrl := None |}
         (Some {[ "allowAnonymousTelemetry" := Json.JBool false ]})
         {| ConfigLoad.files := ∅; ConfigLoad.process_env := ∅;
            ConfigLoad.dotenv := ∅; ConfigLoad.platform := "linux";
            ConfigLoad.lanceDbCpuSupported := false |})
    = Some {| ConfigLoad.config := Some cfg;
              ConfigLoad.errors := None;
              ConfigLoad.configLoadInterrupted := false |}
    /\ cfg !! "allowAnonymousTelemetry" = Some (Json.JBool false).
Proof.
  apply (explicit_telemetry_choice_kept Json.parse Json.replaceAll
           (fun _ => None) Reading.overlayMerge "config.json" (fun url => url)
           {| ConfigLoad.remoteConfigServerUrl := None |}
           (Some {[ "allowAnonymousTelemetry" := Json.JBool false ]})
           {| ConfigLoad.files := ∅; ConfigLoad.process_env := ∅;
              ConfigLoad.dotenv := ∅; ConfigLoad.platform := "linux";
              ConfigLoad.lanceDbCpuSupported := false |}
           {[ "allowAnonymousTelemetry" := Json.JBool false ]}
           (Json.JBool false));
    reflexivity.
Defined.

(** X26. When nothing is merged, the configuration the loader returns is the
    caller's override object itself: the defaults the loader writes
    (telemetry, indexing) are written into the object the caller passed. *)
Theorem returned_config_is_the_override_object
  (JSONC_parse : string -> option Json.Obj)
  (replaceAll : string -> string -> string -> string)
  (validateConfig : Json.Obj -> option (list ConfigLoad.ConfigValidationError))
  (mergeJson : Json.Obj -> Json.Obj -> option string -> Json.Obj)
  (getConfigJsonPath : string) (getConfigJsonPathForRemote : string -> string)
  (ideSettings : ConfigLoad.IdeSettings) (c : Json.Obj) (w : ConfigLoad.Ambient) :
  ConfigLoad.someFatal (validateConfig c) = false ->
  Js.truthy (ConfigLoad.remoteConfigServerUrl ideSettings) = false ->
  let outcome :=
    ConfigLoad.loadSerializedConfig JSONC_parse replaceAll validateConfig mergeJson
      getConfigJsonPath getConfigJsonPathForRemote [] ideSettings (Some c) w in
  ConfigLoad.overrideAfter outcome
  = ConfigLoad.returned outcome ≫= ConfigLoad.config
  /\ is_Some (ConfigLoad.overrideAfter outcome
              ≫= (fun o => o !! "allowAnonymousTelemetry")).
Proof.
  intros Hok Hurl. cbv zeta.
  rewrite (load_without_merges JSONC_parse replaceAll validateConfig mergeJson
             getConfigJsonPath getConfigJsonPathForRemote ideSettings (Some c) w c
             eq_refl Hok Hurl).
  cbv zeta.
  cbn [ConfigLoad.overrideAfter ConfigLoad.returned mbind option_bind
       ConfigLoad.config].
  replace (bool_decide (is_Some (Some c))) with true by reflexivity.
  rewrite (shared_caller_is_cur w c). split; [reflexivity|]. cbn.
  unfold ConfigLoad.defaultTelemetry. cbn [ConfigLoad.cur].
  destruct (c !! "allowAnonymousTelemetry") as [v|] eqn:E.
  - unfold ConfigLoad.disableIndexingOnLinux.
    destruct (_ && _); cbn; [rewrite lookup_insert_ne by discriminate|];
      rewrite E; eauto.
  - unfold ConfigLoad.disableIndexingOnLinux, ConfigLoad.assign.
    destruct (_ && _); cbn;
      [rewrite lookup_insert_ne by discriminate|];
      rewrite lookup_insert_eq; eauto.
Qed.

Lemma returned_config_is_the_override_object_witness :
  ConfigLoad.overrideAfter
    (ConfigLoad.loadSerializedConfig Json.parse Json.replaceAll
       (fun _ => None) Reading.overlayMerge "config.json" (fun url => url)
       [] {| ConfigLoad.remoteConfigServerUrl := None |}
       (Some {[ "models" := Json.JArray [] ]})
       {| ConfigLoad.files := ∅; ConfigLoad.process_env := ∅;
          ConfigLoad.dotenv := ∅; ConfigLoad.platform := "linux";
          ConfigLoad.lanceDbCpuSupported := false |})
  = ConfigLoad.returned
      (ConfigLoad.loadSerializedConfig Json.parse Json.replaceAll
         (fun _ => None) Reading.overlayMerge "config.json" (fun url => url)
         [] {| ConfigLoad.remoteConfigServerUrl := None |}
         (Some {[ "models" := Json.JArray [] ]})
         {| ConfigLoad.files := ∅; ConfigLoad.process_env := ∅;
            ConfigLoad.dotenv := ∅; ConfigLoad.platform := "linux";
            ConfigLoad.lanceDbCpuSupported := false |})
    ≫= ConfigLoad.config.
Proof.
  apply (returned_config_is_the_override_object Json.parse Json.replaceAll
           (fun _ => None) Reading.overlayMerge "config.json" (fun url => url)
           {| ConfigLoad.remoteConfigServerUrl := None |}
           {[ "models" := Json.JArray [] ]}
           {| ConfigLoad.files := ∅; ConfigLoad.process_env := ∅;
              ConfigLoad.dotenv := ∅; ConfigLoad.platform := "linux";
              ConfigLoad.lanceDbCpuSupported := false |});
    reflexivity.
Defined.



(** A file that lists [constructor] is rewritten under every environment:
    the name is inherited by the environment object. *)
Example inherited_name_is_substituted :
  ConfigLoad.substituteEnv Json.replaceAll ∅
    (ConfigLoad.quoted "constructor") [ "constructor" ]
  = ConfigLoad.quoted "function Object() { [native code] }".
Proof. vm_compute. reflexivity. Qed.

(** X28. The [.env] file of the configuration directory takes precedence
    over the process environment: a change of the process environment on
    variables that the [.env] file defines does not change the
    configuration read. *)
Theorem dotenv_takes_precedence
  (JSONC_parse : string -> option Json.Obj)
  (replaceAll : string -> string -> string -> string)
  (w1 w2 : ConfigLoad.Ambient) (filepath : string) :
  ConfigLoad.files w1 = ConfigLoad.files w2 ->
  ConfigLoad.dotenv w1 = ConfigLoad.dotenv w2 ->
  (forall k, ConfigLoad.dotenv w1 !! k = None ->
             ConfigLoad.process_env w1 !! k = ConfigLoad.process_env w2 !! k) ->
  ConfigLoad.resolveSerializedConfig JSONC_parse replaceAll w1 filepath
  = ConfigLoad.resolveSerializedConfig JSONC_parse replaceAll w2 filepath.
Proof.
  intros Hfiles Hd Hp. unfold ConfigLoad.resolveSerializedConfig.
  rewrite <- Hfiles.
  destruct (ConfigLoad.files w1 !! filepath) as [content|]; [| reflexivity].
  destruct (JSONC_parse content) as [config|]; [| reflexivity].
  destruct (ConfigLoad.envNames config) as [names|]; [| reflexivity].
  f_equal. apply substituteEnv_agree.
  intros k _. apply merged_lookup_dotenv; [exact Hd | apply Hp].
Qed.

Lemma dotenv_takes_precedence_witness :
  ConfigLoad.resolveSerializedConfig Json.parse Json.replaceAll
    {| ConfigLoad.files := {[ "config.json" := Reading.envConfigText ]};
       ConfigLoad.process_env := {[ "API_KEY" := "sk-from-shell" ]};
       ConfigLoad.dotenv := {[ "API_KEY" := "sk-from-dotenv" ]};
       ConfigLoad.platform := "darwin";
       ConfigLoad.lanceDbCpuSupported := true |} "config.json"
  = ConfigLoad.resolveSerializedConfig Json.parse Json.replaceAll
      {| ConfigLoad.files := {[ "config.json" := Reading.envConfigText ]};
         ConfigLoad.process_env := ∅;
         ConfigLoad.dotenv := {[ "API_KEY" := "sk-from-dotenv" ]};
         ConfigLoad.platform := "darwin";
         ConfigLoad.lanceDbCpuSupported := true |} "config.json".
Proof.
  apply dotenv_takes_precedence.
  - reflexivity.
  - reflexivity.
  - intros k Hk. cbn in *.
    destruct (decide (k = "API_KEY")) as [-> | Hne].
    + rewrite lookup_singleton_eq in Hk. discriminate.
    + rewrite lookup_singleton_ne by congruence. now rewrite lookup_empty.
Defined.
